(** * pfsync action and message decoding (pfsync/messages.py, pfsync/actions.py)

    A shallow embedding of the pfsync decoder: the byte-level records of
    [pfsync/messages.py], the action classes and the dispatch table of
    [pfsync/actions.py], and the part of Python's [struct] module that they
    use.  Python exceptions are values of an error monad; Python [bytes]
    objects are lists of [Byte.byte]; Python integers are [Z]. *)

From Stdlib Require Import ZArith NArith PeanoNat List String Ascii Bool Lia.
From Stdlib Require Import Strings.Byte.
From Stdlib Require Import DecimalString.
From Stdlib Require DecimalZ DecimalPos.
Import ListNotations.

Local Open Scope string_scope.
Local Open Scope list_scope.

(** ** Python values and exceptions *)

Definition bytes := list byte.

(** The values that [struct.unpack] produces for the format codes in use. *)
Inductive pyval : Type :=
| VInt (z : Z)
| VBytes (b : bytes).

(** A buffer handed back to the caller: [bytes] on the decoding paths, the
    [str] literal of the fallback path of [build_from_header]. *)
Inductive pydata : Type :=
| PyBytes (b : bytes)
| PyStr (s : string).

Definition pydata_len (d : pydata) : nat :=
  match d with
  | PyBytes b => List.length b
  | PyStr s => String.length s
  end.

Inductive pyerror : Type :=
| TruncatedInputError   (* buffer shorter than the layout *)
| StructError           (* struct.error: bad format or wrong buffer size *)
| TypeError             (* wrong number or kind of constructor arguments *)
| OSError               (* socket.inet_ntoa on a string that is not 4 bytes *)
| IndexError.           (* list index out of range *)

Inductive result (A : Type) : Type :=
| Ok (a : A)
| Raise (e : pyerror).

Arguments Ok {A} a.
Arguments Raise {A} e.

Definition bind {A B : Type} (c : result A) (k : A -> result B) : result B :=
  match c with
  | Ok a => k a
  | Raise e => Raise e
  end.

Declare Scope py_scope.
Delimit Scope py_scope with py.
Notation "x <- c ;; k" := (bind c (fun x => k))
  (at level 61, c at next level, right associativity) : py_scope.
Notation "' p <- c ;; k" := (bind c (fun x => match x with p => k end))
  (at level 61, p pattern, c at next level, right associativity) : py_scope.
Local Open Scope py_scope.

(** ** Builtins *)

Module Py.

(** [str(n)] and ['%d' % n] on an integer. *)
Definition str (z : Z) : string := NilZero.string_of_int (Z.to_int z).

(** [data[off:off+len]] *)
Definition slice (data : bytes) (off len : nat) : bytes :=
  firstn len (skipn off data).

(** [bytes.split(sep)] for a one-byte separator. *)
Fixpoint split (sep : byte) (bs : bytes) : list bytes :=
  match bs with
  | [] => [[]]
  | b :: r =>
      if Byte.eqb b sep then [] :: split sep r
      else match split sep r with
           | p :: ps => (b :: p) :: ps
           | [] => [[b]]
           end
  end.

(** [l[i]] for a non-negative index. *)
Definition index {A : Type} (l : list A) (i : nat) : result A :=
  match nth_error l i with
  | Some a => Ok a
  | None => Raise IndexError
  end.

(** [range(n)] has [n] elements, none when [n] is negative. *)
Definition range_len (n : Z) : nat := Z.to_nat n.

Definition dotted_quad (a b c d : byte) : string :=
  let dec x := str (Z.of_N (Byte.to_N x)) in
  (dec a ++ "." ++ dec b ++ "." ++ dec c ++ "." ++ dec d)%string.

(** [socket.inet_ntoa(packed)]: exactly four bytes, dotted decimal. *)
Definition inet_ntoa (packed : bytes) : result string :=
  match packed with
  | [a; b; c; d] => Ok (dotted_quad a b c d)
  | _ => Raise OSError
  end.

End Py.

(** ** The [struct] module, for the format characters the decoder uses *)

Module PyStruct.

Inductive byte_order : Type :=
| Native     (* no prefix: native size and alignment *)
| Network.   (* '!': big-endian, standard size, no alignment *)

Inductive code : Type :=
| Code_s    (* char[]            -> bytes *)
| Code_B    (* unsigned char     -> int   *)
| Code_H    (* unsigned short    -> int   *)
| Code_I    (* unsigned int      -> int   *)
| Code_Q.   (* unsigned long long -> int  *)

(** A repeat count and a format character. *)
Definition item : Type := (nat * code)%type.

Definition code_of_ascii (c : ascii) : option code :=
  if Ascii.eqb c "s" then Some Code_s
  else if Ascii.eqb c "B" then Some Code_B
  else if Ascii.eqb c "H" then Some Code_H
  else if Ascii.eqb c "I" then Some Code_I
  else if Ascii.eqb c "Q" then Some Code_Q
  else None.

Definition digit_of_ascii (c : ascii) : option nat :=
  let n := nat_of_ascii c in
  if (48 <=? n)%nat && (n <=? 57)%nat then Some (n - 48)%nat else None.

Definition is_space (c : ascii) : bool :=
  let n := nat_of_ascii c in
  (n =? 32)%nat || ((9 <=? n)%nat && (n <=? 13)%nat).

(** The items of a format, after the byte-order character.  Whitespace
    between items is skipped; a count must be followed at once by its
    format character. *)
Fixpoint parse_items (s : string) (cnt : option nat) : option (list item) :=
  match s with
  | EmptyString =>
      match cnt with
      | None => Some []
      | Some _ => None
      end
  | String c s' =>
      if is_space c then
        match cnt with
        | None => parse_items s' None
        | Some _ => None
        end
      else
        match digit_of_ascii c with
        | Some d =>
            let acc := match cnt with Some n => n | None => O end in
            parse_items s' (Some (10 * acc + d)%nat)
        | None =>
            match code_of_ascii c with
            | Some k =>
                let n := match cnt with Some n => n | None => 1%nat end in
                option_map (cons (n, k)) (parse_items s' None)
            | None => None
            end
        end
  end.

Definition parse_format (fmt : string) : option (byte_order * list item) :=
  match fmt with
  | String "!" s => option_map (pair Network) (parse_items s None)
  | _ => option_map (pair Native) (parse_items fmt None)
  end.

(** Standard sizes; the native sizes of these five types are the same on
    the platforms that run pfsync. *)
Definition code_size (k : code) : nat :=
  match k with
  | Code_s => 1
  | Code_B => 1
  | Code_H => 2
  | Code_I => 4
  | Code_Q => 8
  end.

(** In native mode every item starts at a multiple of its own size. *)
Definition align (o : byte_order) (off : nat) (k : code) : nat :=
  match o with
  | Network => off
  | Native => ((off + code_size k - 1) / code_size k * code_size k)%nat
  end.

Fixpoint size_items (o : byte_order) (items : list item) (off : nat) : nat :=
  match items with
  | [] => off
  | (n, k) :: rest => size_items o rest (align o off k + n * code_size k)%nat
  end.

Definition calcsize (fmt : string) : result nat :=
  match parse_format fmt with
  | Some (o, items) => Ok (size_items o items 0)
  | None => Raise StructError
  end.

(** Unsigned big-endian value of a byte string. *)
Definition be_int (bs : bytes) : Z :=
  fold_left (fun acc b => (acc * 256 + Z.of_N (Byte.to_N b))%Z) bs 0%Z.

Definition int_of_bytes (o : byte_order) (bs : bytes) : Z :=
  match o with
  | Network => be_int bs
  | Native => be_int (rev bs)
  end.

(** The values of one item that starts at offset [start] of [data]:
    one bytes object for [s], [n] integers otherwise. *)
Definition unpack_item (o : byte_order) (n : nat) (k : code)
           (start : nat) (data : bytes) : list pyval :=
  match k with
  | Code_s => [VBytes (Py.slice data start n)]
  | _ =>
      map (fun i => VInt (int_of_bytes o
                            (Py.slice data (start + i * code_size k) (code_size k))))
          (seq 0 n)
  end.

Fixpoint unpack_items (o : byte_order) (items : list item)
         (off : nat) (data : bytes) : list pyval :=
  match items with
  | [] => []
  | (n, k) :: rest =>
      let start := align o off k in
      unpack_item o n k start data
        ++ unpack_items o rest (start + n * code_size k)%nat data
  end.

(** [struct.unpack(fmt, data)]: the buffer must have exactly the size of
    the format. *)
Definition unpack (fmt : string) (data : bytes) : result (list pyval) :=
  match parse_format fmt with
  | Some (o, items) =>
      if (List.length data =? size_items o items 0)%nat
      then Ok (unpack_items o items 0 data)
      else Raise StructError
  | None => Raise StructError
  end.

End PyStruct.

(** ** pfsync/mixins.py *)

(** Modelled from the spec: [UnpackableMixin] of pfsync/mixins.py, which is
    not among the sources.  The spec's FixedLayoutDecoder: decoding fails
    with [TruncatedInputError] when the buffer is shorter than the layout's
    byte width; otherwise it consumes exactly that width from the front of
    the buffer, decodes the fields, builds the record from them and returns
    the record with the bytes that remain.  A class supplies its layout
    ([get_unpack_format], by default its [unpack_format] attribute) and its
    constructor. *)
Class Unpackable (T : Type) : Type := {
  get_unpack_format : result string;
  init : list pyval -> result T
}.

Definition get_cstruct_size (T : Type) `{Unpackable T} : result nat :=
  fmt <- get_unpack_format ;;
  PyStruct.calcsize fmt.

Definition from_data (T : Type) `{Unpackable T} (data : bytes)
  : result (T * bytes) :=
  fmt <- get_unpack_format ;;
  size <- PyStruct.calcsize fmt ;;
  if (List.length data <? size)%nat then Raise TruncatedInputError
  else
    fields <- PyStruct.unpack fmt (firstn size data) ;;
    obj <- init fields ;;
    Ok (obj, skipn size data).

(** ** pfsync/messages.py *)

Module PFStateKey.

(** [addr]: the two addresses as dotted-quad text; [port]: the two ports. *)
Record t : Type := {
  addr : string * string;
  port : Z * Z
}.

Definition unpack_format : string := "!16s16s 2H".

(** [socket.inet_ntoa(addr[:4])] *)
Definition format_addr (addr : bytes) : result string :=
  Py.inet_ntoa (firstn 4 addr).

Definition __init__ (args : list pyval) : result t :=
  match args with
  | [VBytes addr1; VBytes addr2; VInt port1; VInt port2] =>
      a1 <- format_addr addr1 ;;
      a2 <- format_addr addr2 ;;
      Ok {| addr := (a1, a2); port := (port1, port2) |}
  | _ => Raise TypeError
  end.

#[global] Instance unpackable : Unpackable t := {
  get_unpack_format := Ok unpack_format;
  init := __init__
}.

End PFStateKey.

(** [calcsize('%dsIIIHHBB6B' % calcsize('HBBI'))], the width given to the
    opaque peer blocks (marked "to fix" in the source). *)
Definition state_peer_size : result nat :=
  scrub <- PyStruct.calcsize "HBBI" ;;
  PyStruct.calcsize (Py.str (Z.of_nat scrub) ++ "sIIIHHBB6B")%string.

Module MessageState.

Record t : Type := {
  id : Z;
  creator : Z;
  interface : bytes;
  key : PFStateKey.t * PFStateKey.t;
  packets : (Z * Z) * (Z * Z);
  bytes : (Z * Z) * (Z * Z);
  protocol : Z;
  direction : Z;
  timeout : Z;
  expire : Z;
  creation : Z;
  rule : Z;
  log : Z
}.

Definition get_unpack_format : result string :=
  let unpack_format := "!Q 16s" in
  state_key_size <- get_cstruct_size PFStateKey.t ;;
  let unpack_format :=
    (unpack_format ++ Py.str (Z.of_nat state_key_size) ++ "s"
                   ++ Py.str (Z.of_nat state_key_size) ++ "s")%string in
  state_peer_size <- state_peer_size ;;
  let unpack_format :=
    (unpack_format ++ Py.str (Z.of_nat state_peer_size) ++ "s"
                   ++ Py.str (Z.of_nat state_peer_size) ++ "s")%string in
  let unpack_format :=
    (unpack_format ++ "4I IIIII 4I 4I I B BB 2B BBBBB")%string in
  Ok unpack_format.

Definition __init__ (args : list pyval) : result t :=
  match args with
  | [VInt _id; VBytes ifname;
     VBytes key1; VBytes key2;
     _; _;
     _; _; _; _;
     VInt rule; _; _;
     VInt creation; VInt expire;
     VInt packets1; VInt packets2; VInt packets3; VInt packets4;
     VInt bytes1; VInt bytes2; VInt bytes3; VInt bytes4;
     VInt creator_id;
     _;
     VInt protocol;
     VInt direction;
     _; _;
     VInt log;
     _;
     VInt timeout; _; _] =>
      iface <- Py.index (Py.split x00 ifname) 0 ;;
      k1 <- from_data PFStateKey.t key1 ;;
      k2 <- from_data PFStateKey.t key2 ;;
      Ok {| id := _id;
            creator := creator_id;
            interface := iface;
            key := (fst k1, fst k2);
            packets := ((packets1, packets2), (packets3, packets4));
            bytes := ((bytes1, bytes2), (bytes3, bytes4));
            protocol := protocol;
            direction := direction;
            timeout := timeout;
            expire := expire;
            creation := creation;
            rule := rule;
            log := log |}
  | _ => Raise TypeError
  end.

#[global] Instance unpackable : Unpackable t := {
  get_unpack_format := get_unpack_format;
  init := __init__
}.

(** [self.key[1].addr[1] != self.key[0].addr[1]] *)
Definition is_nat (self : t) : bool :=
  negb (String.eqb (snd (PFStateKey.addr (snd (key self))))
                   (snd (PFStateKey.addr (fst (key self))))).

Definition get_protocol_name (self : t) : string :=
  if (protocol self =? 1)%Z then "ICMP"
  else if (protocol self =? 6)%Z then "TCP"
  else if (protocol self =? 17)%Z then "UDP"
  else if (protocol self =? 112)%Z then "VRRP"
  else Py.str (protocol self).

End MessageState.

Module MessageDeleteCompressed.

Record t : Type := { id : Z; creator : Z }.

Definition unpack_format : string := "!QI".

Definition __init__ (args : list pyval) : result t :=
  match args with
  | [VInt id; VInt creator_id] => Ok {| id := id; creator := creator_id |}
  | _ => Raise TypeError
  end.

#[global] Instance unpackable : Unpackable t := {
  get_unpack_format := Ok unpack_format;
  init := __init__
}.

(** ["%d (created by %d)" % (self.id, self.creator)] *)
Definition __str__ (self : t) : string :=
  (Py.str (id self) ++ " (created by " ++ Py.str (creator self) ++ ")")%string.

End MessageDeleteCompressed.

Module MessageClear.

Record t : Type := { interface : bytes; creator : Z }.

Definition unpack_format : string := "!16s I".

Definition __init__ (args : list pyval) : result t :=
  match args with
  | [VBytes iface; VInt creator_id] =>
      Ok {| interface := iface; creator := creator_id |}
  | _ => Raise TypeError
  end.

#[global] Instance unpackable : Unpackable t := {
  get_unpack_format := Ok unpack_format;
  init := __init__
}.

End MessageClear.

Module MessageInsertAck.

Record t : Type := { id : Z; creator : Z }.

Definition unpack_format : string := "!Q I".

Definition __init__ (args : list pyval) : result t :=
  match args with
  | [VInt id; VInt creator_id] => Ok {| id := id; creator := creator_id |}
  | _ => Raise TypeError
  end.

#[global] Instance unpackable : Unpackable t := {
  get_unpack_format := Ok unpack_format;
  init := __init__
}.

(** ["Ack of inserted state on %s (created by %d)" % (self.id, self.creator)] *)
Definition __str__ (self : t) : string :=
  ("Ack of inserted state on " ++ Py.str (id self)
     ++ " (created by " ++ Py.str (creator self) ++ ")")%string.

End MessageInsertAck.

Module MessageUpdateReq.

Record t : Type := { id : Z; creator : Z }.

Definition unpack_format : string := "!Q I".

Definition __init__ (args : list pyval) : result t :=
  match args with
  | [VInt id; VInt creator_id] => Ok {| id := id; creator := creator_id |}
  | _ => Raise TypeError
  end.

#[global] Instance unpackable : Unpackable t := {
  get_unpack_format := Ok unpack_format;
  init := __init__
}.

(** ["Update state on %s (created by %d)" % (self.id, self.creator)] *)
Definition __str__ (self : t) : string :=
  ("Update state on " ++ Py.str (id self)
     ++ " (created by " ++ Py.str (creator self) ++ ")")%string.

End MessageUpdateReq.

Module MessageUpdateCompressed.

Record t : Type := {
  id : Z;
  creator : Z;
  dst : bytes;
  src : bytes;
  expire : Z;
  timeout : Z
}.

Definition unpack_format : string := "!Q ".

Definition get_unpack_format : result string :=
  let unpack_format := "!Q" in
  state_peer_size <- state_peer_size ;;
  let unpack_format :=
    (unpack_format ++ Py.str (Z.of_nat state_peer_size) ++ "s"
                   ++ Py.str (Z.of_nat state_peer_size) ++ "s")%string in
  let unpack_format := (unpack_format ++ "IIB 3B")%string in
  Ok unpack_format.

Definition __init__ (args : list pyval) : result t :=
  match args with
  | [VInt id; VBytes src; VBytes dst; VInt creator_id; VInt expire;
     VInt timeout; _; _; _] =>
      Ok {| id := id;
            creator := creator_id;
            dst := dst;
            src := src;
            expire := expire;
            timeout := timeout |}
  | _ => Raise TypeError
  end.

#[global] Instance unpackable : Unpackable t := {
  get_unpack_format := get_unpack_format;
  init := __init__
}.

(** ["Compressed update state on %s (created by %d)" % (self.id, self.creator)] *)
Definition __str__ (self : t) : string :=
  ("Compressed update state on " ++ Py.str (id self)
     ++ " (created by " ++ Py.str (creator self) ++ ")")%string.

End MessageUpdateCompressed.

(** ** pfsync/actions.py *)

(** Modelled from the spec: [SubHeader] of pfsync/headers.py, which is not
    among the sources: an action id and a repeat count, both read only. *)
Record SubHeader : Type := {
  action_id : Z;
  count : Z
}.

(** The message classes as values (the [message_class] attributes). *)
Inductive message_class : Type :=
| ClsMessageState
| ClsMessageDeleteCompressed
| ClsMessageClear
| ClsMessageInsertAck
| ClsMessageUpdateReq
| ClsMessageUpdateCompressed.

(** An instance of one of the message classes. *)
Inductive message : Type :=
| MsgState (m : MessageState.t)
| MsgDeleteCompressed (m : MessageDeleteCompressed.t)
| MsgClear (m : MessageClear.t)
| MsgInsertAck (m : MessageInsertAck.t)
| MsgUpdateReq (m : MessageUpdateReq.t)
| MsgUpdateCompressed (m : MessageUpdateCompressed.t).

Definition class_of (m : message) : message_class :=
  match m with
  | MsgState _ => ClsMessageState
  | MsgDeleteCompressed _ => ClsMessageDeleteCompressed
  | MsgClear _ => ClsMessageClear
  | MsgInsertAck _ => ClsMessageInsertAck
  | MsgUpdateReq _ => ClsMessageUpdateReq
  | MsgUpdateCompressed _ => ClsMessageUpdateCompressed
  end.

Definition tagged {T : Type} (tag : T -> message) (r : result (T * bytes))
  : result (message * bytes) :=
  '(m, rest) <- r ;; Ok (tag m, rest).

(** [msg_class.from_data(data)] *)
Definition message_from_data (msg_class : message_class) (data : bytes)
  : result (message * bytes) :=
  match msg_class with
  | ClsMessageState => tagged MsgState (from_data MessageState.t data)
  | ClsMessageDeleteCompressed =>
      tagged MsgDeleteCompressed (from_data MessageDeleteCompressed.t data)
  | ClsMessageClear => tagged MsgClear (from_data MessageClear.t data)
  | ClsMessageInsertAck => tagged MsgInsertAck (from_data MessageInsertAck.t data)
  | ClsMessageUpdateReq => tagged MsgUpdateReq (from_data MessageUpdateReq.t data)
  | ClsMessageUpdateCompressed =>
      tagged MsgUpdateCompressed (from_data MessageUpdateCompressed.t data)
  end.

(** [msg_class.get_cstruct_size()] *)
Definition message_cstruct_size (msg_class : message_class) : result nat :=
  match msg_class with
  | ClsMessageState => get_cstruct_size MessageState.t
  | ClsMessageDeleteCompressed => get_cstruct_size MessageDeleteCompressed.t
  | ClsMessageClear => get_cstruct_size MessageClear.t
  | ClsMessageInsertAck => get_cstruct_size MessageInsertAck.t
  | ClsMessageUpdateReq => get_cstruct_size MessageUpdateReq.t
  | ClsMessageUpdateCompressed => get_cstruct_size MessageUpdateCompressed.t
  end.

(** The subclasses of [BaseAction]. *)
Inductive action_class : Type :=
| ActionInsertState
| ActionUpdateState
| ActionDeleteState
| ActionDeleteCompressedState
| ActionClearStates
| ActionInsertAck
| ActionUpdateRequestState
| ActionUpdateCompressedState.

Module BaseAction.

(** An action object: its class, its header and its message list. *)
Record t : Type := {
  cls : action_class;
  header : SubHeader;
  messages : list message
}.

Definition __init__ (c : action_class) (shdr : SubHeader) : t :=
  {| cls := c; header := shdr; messages := [] |}.

(** [action.messages.append(msg)] *)
Definition append (action : t) (msg : message) : t :=
  {| cls := cls action;
     header := header action;
     messages := messages action ++ [msg] |}.

(** The [message_class] attribute of each subclass. *)
Definition message_class_of (c : action_class) : message_class :=
  match c with
  | ActionInsertState => ClsMessageState
  | ActionUpdateState => ClsMessageState
  | ActionDeleteState => ClsMessageState
  | ActionDeleteCompressedState => ClsMessageDeleteCompressed
  | ActionClearStates => ClsMessageClear
  | ActionInsertAck => ClsMessageInsertAck
  | ActionUpdateRequestState => ClsMessageUpdateReq
  | ActionUpdateCompressedState => ClsMessageUpdateCompressed
  end.

Definition get_message_class (c : action_class) : message_class :=
  message_class_of c.

(** The [for _ in range(shdr.count)] loop, [n] iterations left; [decode]
    is [msg_class.from_data]. *)
Fixpoint from_data_loop (decode : bytes -> result (message * bytes))
         (n : nat) (action : t) (data : bytes) : result (t * bytes) :=
  match n with
  | O => Ok (action, data)
  | S n' =>
      '(msg, data) <- decode data ;;
      from_data_loop decode n' (append action msg) data
  end.

Definition from_data (c : action_class) (data : bytes) (shdr : SubHeader)
  : result (t * bytes) :=
  let msg_class := get_message_class c in
  let action := __init__ c shdr in
  from_data_loop (message_from_data msg_class)
                 (Py.range_len (count shdr)) action data.

End BaseAction.

(** The table [actions] of [build_from_header]; [None] for the ids without
    an action class. *)
Definition actions : list (option action_class) :=
  [ Some ActionClearStates;
    Some ActionInsertState;
    Some ActionInsertAck;
    Some ActionUpdateState;
    Some ActionUpdateCompressedState;
    Some ActionUpdateRequestState;
    Some ActionDeleteState;
    Some ActionDeleteCompressedState;
    None;
    None;
    None;
    None;
    None;
    None;
    None ].

(** The test [shdr.action_id >= 0 and shdr.action_id < len(actions) and
    actions[shdr.action_id]], with the class found when it holds. *)
Definition lookup_action (shdr : SubHeader) : option action_class :=
  if (action_id shdr >=? 0)%Z
     && (action_id shdr <? Z.of_nat (List.length actions))%Z
  then match nth_error actions (Z.to_nat (action_id shdr)) with
       | Some (Some c) => Some c
       | _ => None
       end
  else None.

Definition build_from_header (shdr : SubHeader) (data : bytes)
  : result (option BaseAction.t * pydata) :=
  match lookup_action shdr with
  | Some c =>
      '(action, data) <- BaseAction.from_data c data shdr ;;
      Ok (Some action, PyBytes data)
  | None =>
      let data := PyStr EmptyString in
      Ok (None, data)
  end.

(** ** Descriptions used in the statements *)

(** The bytes of [bs] before the first occurrence of [sep]. *)
Fixpoint prefix_before (sep : byte) (bs : bytes) : bytes :=
  match bs with
  | [] => []
  | b :: r => if Byte.eqb b sep then [] else b :: prefix_before sep r
  end.

(** The dotted quad of the first four bytes of an address field. *)
Definition ipv4_text (field : bytes) : string :=
  Py.dotted_quad (nth 0 field x00) (nth 1 field x00)
                 (nth 2 field x00) (nth 3 field x00).

(** The state key held in a 36-byte field. *)
Definition state_key_at (field : bytes) : PFStateKey.t :=
  {| PFStateKey.addr := (ipv4_text (Py.slice field 0 16),
                         ipv4_text (Py.slice field 16 16));
     PFStateKey.port := (PyStruct.be_int (Py.slice field 32 2),
                         PyStruct.be_int (Py.slice field 34 2)) |}.

(** Width in bytes of every wire field of a layout, in order: one field
    for a byte string, one per repetition for an integer code. *)
Definition field_widths (items : list PyStruct.item) : list nat :=
  flat_map (fun it : PyStruct.item =>
              match snd it with
              | PyStruct.Code_s => [fst it]
              | k => repeat (PyStruct.code_size k) (fst it)
              end) items.

(** [n] successive decodes starting from [data], each on the remainder of
    the one before: the messages in order and the final remainder. *)
Inductive decode_run (decode : bytes -> result (message * bytes))
  : nat -> bytes -> list message -> bytes -> Prop :=
| run_done : forall data, decode_run decode 0 data [] data
| run_step : forall n data msg data' msgs rest,
    decode data = Ok (msg, data') ->
    decode_run decode n data' msgs rest ->
    decode_run decode (S n) data (msg :: msgs) rest.

(** The items of the [MessageState] format: id, interface name, the two
    keys, the two peers, the four words of [rt_addr], [rule] to [expire],
    the packet and byte counters, the creator id, and from [af] to
    [updates] ten single bytes. *)
Definition state_items : list PyStruct.item :=
  let s n := (n, PyStruct.Code_s) in
  let I n := (n, PyStruct.Code_I) in
  let B n := (n, PyStruct.Code_B) in
  [(1, PyStruct.Code_Q); s 16; s 36; s 36; s 32; s 32;
   I 4;
   I 1; I 1; I 1; I 1; I 1;
   I 4; I 4; I 1;
   B 1; B 1; B 1; B 2;
   B 1; B 1; B 1; B 1; B 1]%nat.

(** The state message held at the front of [data], field by field. *)
Definition state_at (data : bytes) : MessageState.t :=
  let int off len := PyStruct.be_int (Py.slice data off len) in
  {| MessageState.id := int 0 8;
     MessageState.creator := int 228 4;
     MessageState.interface := prefix_before x00 (Py.slice data 8 16);
     MessageState.key := (state_key_at (Py.slice data 24 36),
                          state_key_at (Py.slice data 60 36));
     MessageState.packets := ((int 196 4, int 200 4), (int 204 4, int 208 4));
     MessageState.bytes := ((int 212 4, int 216 4), (int 220 4, int 224 4));
     MessageState.protocol := int 233 1;
     MessageState.direction := int 234 1;
     MessageState.timeout := int 239 1;
     MessageState.expire := int 192 4;
     MessageState.creation := int 188 4;
     MessageState.rule := int 176 4;
     MessageState.log := int 237 1 |}%nat.

(** The message of class [mc] held at the front of [data]. *)
Definition message_at (mc : message_class) (data : bytes) : message :=
  let int off len := PyStruct.be_int (Py.slice data off len) in
  match mc with
  | ClsMessageState => MsgState (state_at data)
  | ClsMessageDeleteCompressed =>
      MsgDeleteCompressed
        {| MessageDeleteCompressed.id := int 0 8;
           MessageDeleteCompressed.creator := int 8 4 |}
  | ClsMessageClear =>
      MsgClear
        {| MessageClear.interface := Py.slice data 0 16;
           MessageClear.creator := int 16 4 |}
  | ClsMessageInsertAck =>
      MsgInsertAck
        {| MessageInsertAck.id := int 0 8;
           MessageInsertAck.creator := int 8 4 |}
  | ClsMessageUpdateReq =>
      MsgUpdateReq
        {| MessageUpdateReq.id := int 0 8;
           MessageUpdateReq.creator := int 8 4 |}
  | ClsMessageUpdateCompressed =>
      MsgUpdateCompressed
        {| MessageUpdateCompressed.id := int 0 8;
           MessageUpdateCompressed.creator := int 72 4;
           MessageUpdateCompressed.dst := Py.slice data 40 32;
           MessageUpdateCompressed.src := Py.slice data 8 32;
           MessageUpdateCompressed.expire := int 76 4;
           MessageUpdateCompressed.timeout := int 80 1 |}
  end%nat.

(** The byte width of each message class. *)
Definition message_width (mc : message_class) : nat :=
  match mc with
  | ClsMessageState => 242
  | ClsMessageDeleteCompressed => 12
  | ClsMessageClear => 20
  | ClsMessageInsertAck => 12
  | ClsMessageUpdateReq => 12
  | ClsMessageUpdateCompressed => 84
  end.

(** The [n] messages of class [mc] laid end to end at the front of [data]. *)
Definition messages_at (mc : message_class) (n : nat) (data : bytes)
  : list message :=
  map (fun i => message_at mc (skipn (i * message_width mc) data)) (seq 0 n).

(** The state-message layout in the words of the specification: an 8-byte
    id, a 16-byte interface name, two state keys, two peer blocks, a 4-byte
    rt_addr, five 4-byte counters, four packet counters, four byte
    counters, a 4-byte creator id and eight single bytes.  Keys and peers
    have the widths the code gives them. *)
Definition claimed_state_widths : list nat :=
  [8; 16] ++ [36; 36] ++ [32; 32] ++ [4] ++ repeat 4 5
    ++ repeat 4 4 ++ repeat 4 4 ++ [4] ++ repeat 1 8.

(** The layout the decoder has: as above with a 16-byte rt_addr, read as
    four 4-byte words, and ten single bytes. *)
Definition wire_state_widths : list nat :=
  [8; 16] ++ [36; 36] ++ [32; 32] ++ repeat 4 4 ++ repeat 4 5
    ++ repeat 4 4 ++ repeat 4 4 ++ [4] ++ repeat 1 10.

(** The id and creator of the three messages that carry nothing else. *)
Definition id_creator (m : message) : option (Z * Z) :=
  match m with
  | MsgDeleteCompressed r =>
      Some (MessageDeleteCompressed.id r, MessageDeleteCompressed.creator r)
  | MsgInsertAck r => Some (MessageInsertAck.id r, MessageInsertAck.creator r)
  | MsgUpdateReq r => Some (MessageUpdateReq.id r, MessageUpdateReq.creator r)
  | _ => None
  end.

(** What [build_from_header] returns when it hands the buffer to the action
    class [c], whose messages are of class [mc]. *)
Definition dispatched (c : action_class) (mc : message_class)
           (shdr : SubHeader) (data : bytes)
  : result (option BaseAction.t * pydata) :=
  '(action, rest) <-
     BaseAction.from_data_loop (message_from_data mc)
       (Py.range_len (count shdr)) (BaseAction.__init__ c shdr) data ;;
  Ok (Some action, PyBytes rest).

(** Reading a decimal numeral back. *)
Definition parse_decimal (s : string) : option Z :=
  option_map Z.of_int (NilZero.int_of_string s).

(** ** Descriptions used for the further properties *)

(** [n] successive decodes from [data]: the messages in order and what is
    left, or the error of the first decode that fails. *)
Fixpoint decode_many (decode : bytes -> result (message * bytes))
         (n : nat) (data : bytes) : result (list message * bytes) :=
  match n with
  | O => Ok ([], data)
  | S n' =>
      '(msg, data) <- decode data ;;
      '(msgs, rest) <- decode_many decode n' data ;;
      Ok (msg :: msgs, rest)
  end.

(** What a caller reads from the result of an action decode, the class and
    header apart: the messages and the remainder. *)
Definition payload (r : result (BaseAction.t * bytes))
  : result (list message * bytes) :=
  '(action, rest) <- r ;; Ok (BaseAction.messages action, rest).

(** [c] does not occur in [s]. *)
Fixpoint avoids (c : ascii) (s : string) : bool :=
  match s with
  | EmptyString => true
  | String a s' => negb (Ascii.eqb a c) && avoids c s'
  end.

(** The characters of a decimal numeral: the digits and the minus sign. *)
Definition numeral_char (c : ascii) : bool :=
  Ascii.eqb c "-"
  || ((48 <=? nat_of_ascii c)%nat && (nat_of_ascii c <=? 57)%nat).

(** [z] fits an unsigned integer of [bits] bits. *)
Definition uint (bits z : Z) : Prop := (0 <= z < 2 ^ bits)%Z.

Definition quad_uint32 (q : (Z * Z) * (Z * Z)) : Prop :=
  uint 32 (fst (fst q)) /\ uint 32 (snd (fst q))
  /\ uint 32 (fst (snd q)) /\ uint 32 (snd (snd q)).

Definition ports_uint16 (k : PFStateKey.t) : Prop :=
  uint 16 (fst (PFStateKey.port k)) /\ uint 16 (snd (PFStateKey.port k)).

(** The pieces of [s] between the occurrences of [c]. *)
Fixpoint split_on (c : ascii) (s : string) : list string :=
  match s with
  | EmptyString => [EmptyString]
  | String a s' =>
      if Ascii.eqb a c then EmptyString :: split_on c s'
      else match split_on c s' with
           | p :: ps => String a p :: ps
           | [] => [String a EmptyString]
           end
  end.

Fixpoint parse_all (l : list string) : option (list Z) :=
  match l with
  | [] => Some []
  | x :: r =>
      match parse_decimal x, parse_all r with
      | Some z, Some zs => Some (z :: zs)
      | _, _ => None
      end
  end.

(** Reading a dotted text back: the numbers between its dots. *)
Definition read_dotted (s : string) : option (list Z) :=
  parse_all (split_on "." s).

(** The value of a byte as an integer. *)
Definition byte_value (x : byte) : Z := Z.of_N (Byte.to_N x).

(** * Properties *)

(** ** The model on sample inputs *)

Example calcsize_scrub : PyStruct.calcsize "HBBI" = Ok 8%nat.
Proof. reflexivity. Qed.

Example calcsize_peer : state_peer_size = Ok 32%nat.
Proof. reflexivity. Qed.

Example parse_count_then_blank : PyStruct.parse_format "!Q 2 I" = None.
Proof. reflexivity. Qed.

Example unpack_sample :
  PyStruct.unpack "!H 2s B" [x01; x02; x03; x04; x05]
  = Ok [VInt 258; VBytes [x03; x04]; VInt 5].
Proof. reflexivity. Qed.

Example unpack_wrong_size :
  PyStruct.unpack "!H" [x01; x02; x03] = Raise StructError.
Proof. reflexivity. Qed.

Example split_sample :
  Py.split x00 [x61; x00; x00; x62] = [[x61]; []; [x62]].
Proof. reflexivity. Qed.

Example inet_ntoa_sample :
  Py.inet_ntoa [xc0; xa8; x01; xfe] = Ok "192.168.1.254".
Proof. reflexivity. Qed.

Example inet_ntoa_wrong_length :
  Py.inet_ntoa [xc0; xa8; x01] = Raise OSError.
Proof. reflexivity. Qed.

Example state_key_sample :
  from_data PFStateKey.t
    ([x0a; x00; x00; x01] ++ repeat xff 12
       ++ [xc0; xa8; x00; x02] ++ repeat x00 12
       ++ [x00; x50; x1f; x90] ++ [xee])
  = Ok ({| PFStateKey.addr := ("10.0.0.1", "192.168.0.2");
           PFStateKey.port := (80%Z, 8080%Z) |}, [xee]).
Proof. reflexivity. Qed.

Example dispatch_delete_compressed :
  build_from_header {| action_id := 7; count := 2 |}
    ([x00; x00; x00; x00; x00; x00; x00; x01; x00; x00; x00; x0a]
       ++ [x00; x00; x00; x00; x00; x00; x00; x02; x00; x00; x00; x0b]
       ++ [x2a])
  = Ok (Some {| BaseAction.cls := ActionDeleteCompressedState;
                BaseAction.header := {| action_id := 7; count := 2 |};
                BaseAction.messages :=
                  [MsgDeleteCompressed
                     {| MessageDeleteCompressed.id := 1;
                        MessageDeleteCompressed.creator := 10 |};
                   MsgDeleteCompressed
                     {| MessageDeleteCompressed.id := 2;
                        MessageDeleteCompressed.creator := 11 |}] |},
        PyBytes [x2a]).
Proof. reflexivity. Qed.

Example dispatch_negative_count :
  build_from_header {| action_id := 0; count := -3 |} [x01]
  = Ok (Some (BaseAction.__init__ ActionClearStates
                {| action_id := 0; count := -3 |}),
        PyBytes [x01]).
Proof. reflexivity. Qed.

Example dispatch_end_of_frame :
  build_from_header {| action_id := 12; count := 1 |} [x01; x02]
  = Ok (None, PyStr EmptyString).
Proof. reflexivity. Qed.

(** ** Slices *)

Lemma slice_firstn (data : bytes) (n off len : nat) :
  (off + len <= n)%nat ->
  Py.slice (firstn n data) off len = Py.slice data off len.
Proof.
  intros Hle. unfold Py.slice.
  rewrite skipn_firstn_comm, firstn_firstn.
  f_equal. lia.
Qed.

Lemma slice_length (data : bytes) (off len : nat) :
  (off + len <= List.length data)%nat ->
  List.length (Py.slice data off len) = len.
Proof.
  intros Hle. unfold Py.slice. rewrite length_firstn, length_skipn. lia.
Qed.

Lemma slice_app_left (l r : bytes) :
  Py.slice (l ++ r) 0 (List.length l) = l.
Proof.
  unfold Py.slice. cbn [skipn].
  rewrite firstn_app, Nat.sub_diag, firstn_all.
  cbn. apply app_nil_r.
Qed.

Lemma slice_app_right (p l r : bytes) :
  Py.slice (p ++ l ++ r) (List.length p) (List.length l) = l.
Proof.
  unfold Py.slice.
  rewrite skipn_app, skipn_all, Nat.sub_diag. cbn [skipn app].
  rewrite firstn_app, Nat.sub_diag, firstn_all.
  cbn. apply app_nil_r.
Qed.

(** ** [bytes.split] and the first NUL *)

Lemma split_head (sep : byte) (bs : bytes) :
  Py.index (Py.split sep bs) 0 = Ok (prefix_before sep bs).
Proof.
  assert (Hsp : exists ps, Py.split sep bs = prefix_before sep bs :: ps).
  { induction bs as [|b r [ps IH]]; cbn.
    - now exists [].
    - destruct (Byte.eqb b sep).
      + now eexists.
      + rewrite IH. now eexists. }
  destruct Hsp as [ps Hps]. unfold Py.index. now rewrite Hps.
Qed.

Lemma byte_eqb_true (a b : byte) : Byte.eqb a b = true <-> a = b.
Proof.
  split.
  - apply Byte.byte_dec_bl.
  - apply Byte.byte_dec_lb.
Qed.

Lemma prefix_before_free (sep : byte) (bs : bytes) :
  ~ In sep (prefix_before sep bs).
Proof.
  induction bs as [|b r IH]; cbn; [tauto|].
  destruct (Byte.eqb b sep) eqn:E; cbn; [tauto|].
  intros [Heq | Hin]; [|tauto].
  subst b. rewrite (proj2 (byte_eqb_true sep sep) eq_refl) in E. discriminate.
Qed.

Lemma prefix_before_cut (sep : byte) (bs : bytes) :
  exists rest, bs = prefix_before sep bs ++ rest
               /\ (rest = [] \/ exists tl, rest = sep :: tl).
Proof.
  induction bs as [|b r [rest [IH Hrest]]]; cbn.
  - exists []. split; [reflexivity | now left].
  - destruct (Byte.eqb b sep) eqn:E.
    + apply byte_eqb_true in E. subst b.
      exists (sep :: r). split; [reflexivity | right; now eexists].
    + exists rest. split; [cbn; now rewrite <- IH | exact Hrest].
Qed.

Lemma prefix_before_whole (sep : byte) (bs : bytes) :
  ~ In sep bs -> prefix_before sep bs = bs.
Proof.
  induction bs as [|b r IH]; cbn; [reflexivity|].
  intros Hnot. destruct (Byte.eqb b sep) eqn:E.
  - apply byte_eqb_true in E. subst b. tauto.
  - f_equal. apply IH. tauto.
Qed.

(** ** The modelled mixin *)

Section Mixin.
Context (T : Type) `{Unpackable T}.
Variables (fmt : string) (o : PyStruct.byte_order)
          (items : list PyStruct.item).
Hypothesis Hfmt : get_unpack_format = Ok fmt.
Hypothesis Hparse : PyStruct.parse_format fmt = Some (o, items).

Let size := PyStruct.size_items o items 0.

Lemma get_cstruct_size_eq : get_cstruct_size T = Ok size.
Proof.
  unfold get_cstruct_size. rewrite Hfmt. cbn [bind].
  unfold PyStruct.calcsize. now rewrite Hparse.
Qed.

Lemma from_data_truncated (data : bytes) :
  (List.length data < size)%nat ->
  from_data T data = Raise TruncatedInputError.
Proof.
  intros Hlt. unfold from_data. rewrite Hfmt. cbn [bind].
  unfold PyStruct.calcsize. rewrite Hparse. cbn [bind].
  apply Nat.ltb_lt in Hlt. fold size. now rewrite Hlt.
Qed.

Lemma from_data_fields (data : bytes) :
  (size <= List.length data)%nat ->
  from_data T data =
    (obj <- init (PyStruct.unpack_items o items 0 (firstn size data)) ;;
     Ok (obj, skipn size data)).
Proof.
  intros Hge. unfold from_data. rewrite Hfmt. cbn [bind].
  unfold PyStruct.calcsize, PyStruct.unpack. rewrite Hparse. cbn [bind].
  fold size. apply Nat.ltb_ge in Hge as Hltb. rewrite Hltb.
  rewrite firstn_length_le by exact Hge.
  now rewrite Nat.eqb_refl.
Qed.
End Mixin.

(** Unfolds the field list of a concrete layout, leaving the slices. *)
Ltac unpack_fields :=
  cbn [PyStruct.unpack_items PyStruct.unpack_item PyStruct.align
       PyStruct.code_size PyStruct.int_of_bytes map seq app
       Nat.add Nat.mul].

(** ** Layouts of the message classes *)

Lemma PFStateKey_layout :
  PyStruct.parse_format PFStateKey.unpack_format
  = Some (PyStruct.Network,
          [(16, PyStruct.Code_s); (16, PyStruct.Code_s); (2, PyStruct.Code_H)]%nat).
Proof. reflexivity. Qed.

Lemma MessageState_format :
  MessageState.get_unpack_format
  = Ok "!Q 16s36s36s32s32s4I IIIII 4I 4I I B BB 2B BBBBB".
Proof. reflexivity. Qed.

Lemma MessageState_layout :
  PyStruct.parse_format "!Q 16s36s36s32s32s4I IIIII 4I 4I I B BB 2B BBBBB"
  = Some (PyStruct.Network, state_items).
Proof. reflexivity. Qed.

Lemma id_creator_layout (fmt : string) :
  fmt = "!QI" \/ fmt = "!Q I" ->
  PyStruct.parse_format fmt
  = Some (PyStruct.Network, [(1, PyStruct.Code_Q); (1, PyStruct.Code_I)]%nat).
Proof. intros [-> | ->]; reflexivity. Qed.

Lemma MessageClear_layout :
  PyStruct.parse_format MessageClear.unpack_format
  = Some (PyStruct.Network, [(16, PyStruct.Code_s); (1, PyStruct.Code_I)]%nat).
Proof. reflexivity. Qed.

Lemma MessageUpdateCompressed_format :
  MessageUpdateCompressed.get_unpack_format = Ok "!Q32s32sIIB 3B".
Proof. reflexivity. Qed.

Lemma MessageUpdateCompressed_layout :
  PyStruct.parse_format "!Q32s32sIIB 3B"
  = Some (PyStruct.Network,
          [(1, PyStruct.Code_Q); (32, PyStruct.Code_s); (32, PyStruct.Code_s);
           (1, PyStruct.Code_I); (1, PyStruct.Code_I); (1, PyStruct.Code_B);
           (3, PyStruct.Code_B)]%nat).
Proof. reflexivity. Qed.

Lemma message_cstruct_size_eq (mc : message_class) :
  message_cstruct_size mc = Ok (message_width mc).
Proof. destruct mc; reflexivity. Qed.

(** ** Decoding one record *)

Lemma format_addr_ipv4 (field : bytes) :
  (4 <= List.length field)%nat ->
  PFStateKey.format_addr field = Ok (ipv4_text field).
Proof.
  intros Hlen. unfold PFStateKey.format_addr, ipv4_text.
  destruct field as [|a [|b [|c [|d tl]]]]; cbn in Hlen; try lia.
  reflexivity.
Qed.

Lemma PFStateKey_from_data_ok (data : bytes) :
  (36 <= List.length data)%nat ->
  from_data PFStateKey.t data = Ok (state_key_at data, skipn 36 data).
Proof.
  intros Hlen.
  rewrite (from_data_fields PFStateKey.t (H := PFStateKey.unpackable)
             _ _ _ eq_refl PFStateKey_layout)
    by (cbn; exact Hlen).
  unpack_fields.
  rewrite !slice_firstn by (cbn; lia).
  cbn [init PFStateKey.unpackable PFStateKey.__init__].
  rewrite !format_addr_ipv4 by (rewrite slice_length; lia).
  reflexivity.
Qed.

Lemma MessageState_from_data_ok (data : bytes) :
  (242 <= List.length data)%nat ->
  from_data MessageState.t data = Ok (state_at data, skipn 242 data).
Proof.
  intros Hlen.
  rewrite (from_data_fields MessageState.t (H := MessageState.unpackable)
             _ _ _ MessageState_format MessageState_layout)
    by (cbn; exact Hlen).
  change (PyStruct.size_items PyStruct.Network state_items 0) with 242%nat.
  unfold state_items. unpack_fields.
  rewrite !slice_firstn by (cbn; lia).
  cbn [init MessageState.unpackable MessageState.__init__].
  rewrite split_head. cbn [bind].
  rewrite !PFStateKey_from_data_ok by (rewrite slice_length; lia).
  reflexivity.
Qed.

Lemma MessageDeleteCompressed_from_data_ok (data : bytes) :
  (12 <= List.length data)%nat ->
  from_data MessageDeleteCompressed.t data
  = Ok ({| MessageDeleteCompressed.id :=
             PyStruct.be_int (Py.slice data 0 8);
           MessageDeleteCompressed.creator :=
             PyStruct.be_int (Py.slice data 8 4) |},
        skipn 12 data).
Proof.
  intros Hlen.
  rewrite (from_data_fields MessageDeleteCompressed.t
             (H := MessageDeleteCompressed.unpackable)
             _ _ _ eq_refl (id_creator_layout _ (or_introl eq_refl)))
    by (cbn; exact Hlen).
  unpack_fields. rewrite !slice_firstn by (cbn; lia). reflexivity.
Qed.

Lemma MessageInsertAck_from_data_ok (data : bytes) :
  (12 <= List.length data)%nat ->
  from_data MessageInsertAck.t data
  = Ok ({| MessageInsertAck.id := PyStruct.be_int (Py.slice data 0 8);
           MessageInsertAck.creator := PyStruct.be_int (Py.slice data 8 4) |},
        skipn 12 data).
Proof.
  intros Hlen.
  rewrite (from_data_fields MessageInsertAck.t
             (H := MessageInsertAck.unpackable)
             _ _ _ eq_refl (id_creator_layout _ (or_intror eq_refl)))
    by (cbn; exact Hlen).
  unpack_fields. rewrite !slice_firstn by (cbn; lia). reflexivity.
Qed.

Lemma MessageUpdateReq_from_data_ok (data : bytes) :
  (12 <= List.length data)%nat ->
  from_data MessageUpdateReq.t data
  = Ok ({| MessageUpdateReq.id := PyStruct.be_int (Py.slice data 0 8);
           MessageUpdateReq.creator := PyStruct.be_int (Py.slice data 8 4) |},
        skipn 12 data).
Proof.
  intros Hlen.
  rewrite (from_data_fields MessageUpdateReq.t
             (H := MessageUpdateReq.unpackable)
             _ _ _ eq_refl (id_creator_layout _ (or_intror eq_refl)))
    by (cbn; exact Hlen).
  unpack_fields. rewrite !slice_firstn by (cbn; lia). reflexivity.
Qed.

Lemma MessageClear_from_data_ok (data : bytes) :
  (20 <= List.length data)%nat ->
  from_data MessageClear.t data
  = Ok ({| MessageClear.interface := Py.slice data 0 16;
           MessageClear.creator := PyStruct.be_int (Py.slice data 16 4) |},
        skipn 20 data).
Proof.
  intros Hlen.
  rewrite (from_data_fields MessageClear.t (H := MessageClear.unpackable)
             _ _ _ eq_refl MessageClear_layout)
    by (cbn; exact Hlen).
  unpack_fields. rewrite !slice_firstn by (cbn; lia). reflexivity.
Qed.

Lemma message_from_data_ok (mc : message_class) (data : bytes) :
  (message_width mc <= List.length data)%nat ->
  message_from_data mc data
  = Ok (message_at mc data, skipn (message_width mc) data).
Proof.
  intros Hlen. destruct mc; cbn [message_width] in Hlen;
    cbn [message_from_data message_at message_width]; unfold tagged.
  - now rewrite MessageState_from_data_ok.
  - now rewrite MessageDeleteCompressed_from_data_ok.
  - now rewrite MessageClear_from_data_ok.
  - now rewrite MessageInsertAck_from_data_ok.
  - now rewrite MessageUpdateReq_from_data_ok.
  - rewrite (from_data_fields MessageUpdateCompressed.t
               (H := MessageUpdateCompressed.unpackable)
               _ _ _ MessageUpdateCompressed_format
               MessageUpdateCompressed_layout)
      by (cbn; exact Hlen).
    unpack_fields. rewrite !slice_firstn by (cbn; lia). reflexivity.
Qed.

Lemma message_from_data_truncated (mc : message_class) (data : bytes) :
  (List.length data < message_width mc)%nat ->
  message_from_data mc data = Raise TruncatedInputError.
Proof.
  intros Hlen. destruct mc; cbn [message_width] in Hlen;
    cbn [message_from_data]; unfold tagged.
  - now rewrite (from_data_truncated MessageState.t
                   (H := MessageState.unpackable)
                   _ _ _ MessageState_format MessageState_layout)
      by (cbn; exact Hlen).
  - now rewrite (from_data_truncated MessageDeleteCompressed.t
                   (H := MessageDeleteCompressed.unpackable)
                   _ _ _ eq_refl (id_creator_layout _ (or_introl eq_refl)))
      by (cbn; exact Hlen).
  - now rewrite (from_data_truncated MessageClear.t
                   (H := MessageClear.unpackable)
                   _ _ _ eq_refl MessageClear_layout)
      by (cbn; exact Hlen).
  - now rewrite (from_data_truncated MessageInsertAck.t
                   (H := MessageInsertAck.unpackable)
                   _ _ _ eq_refl (id_creator_layout _ (or_intror eq_refl)))
      by (cbn; exact Hlen).
  - now rewrite (from_data_truncated MessageUpdateReq.t
                   (H := MessageUpdateReq.unpackable)
                   _ _ _ eq_refl (id_creator_layout _ (or_intror eq_refl)))
      by (cbn; exact Hlen).
  - now rewrite (from_data_truncated MessageUpdateCompressed.t
                   (H := MessageUpdateCompressed.unpackable)
                   _ _ _ MessageUpdateCompressed_format
                   MessageUpdateCompressed_layout)
      by (cbn; exact Hlen).
Qed.

(** ** The action loop *)

Section Loop.
Variable decode : bytes -> result (message * bytes).

(** The loop returns exactly when [n] successive decodes succeed, with
    their messages appended in order. *)
Lemma from_data_loop_run (n : nat) :
  forall action data a rest,
    BaseAction.from_data_loop decode n action data = Ok (a, rest)
    <-> exists msgs,
        decode_run decode n data msgs rest
        /\ a = {| BaseAction.cls := BaseAction.cls action;
                  BaseAction.header := BaseAction.header action;
                  BaseAction.messages := BaseAction.messages action ++ msgs |}.
Proof.
  induction n as [|n IH]; intros action data a rest;
    cbn [BaseAction.from_data_loop].
  - split.
    + intros Heq. inversion Heq; subst. exists []. split; [constructor|].
      destruct a; cbn. now rewrite app_nil_r.
    + intros [msgs [Hrun ->]]. inversion Hrun; subst.
      destruct action; cbn. now rewrite app_nil_r.
  - destruct (decode data) as [[msg data']|e] eqn:Hdec; cbn [bind].
    + rewrite IH. split.
      * intros [msgs [Hrun ->]]. exists (msg :: msgs). split.
        -- econstructor; eassumption.
        -- cbn. now rewrite <- app_assoc.
      * intros [msgs [Hrun ->]]. inversion Hrun; subst.
        match goal with
        | Hd : decode data = Ok _ |- _ =>
            rewrite Hdec in Hd; inversion Hd; subst
        end.
        eexists. split; [eassumption|].
        cbn. now rewrite <- app_assoc.
    + split; [discriminate|].
      intros [msgs [Hrun _]]. inversion Hrun; subst. congruence.
Qed.

Lemma decode_run_length (n : nat) (data : bytes) (msgs : list message)
      (rest : bytes) :
  decode_run decode n data msgs rest -> List.length msgs = n.
Proof. induction 1; cbn; congruence. Qed.
End Loop.

Lemma seq_succ_map {A : Type} (f : nat -> A) (n : nat) :
  map f (seq 1 n) = map (fun i => f (S i)) (seq 0 n).
Proof. now rewrite <- seq_shift, map_map. Qed.

Lemma messages_at_succ (mc : message_class) (n : nat) (data : bytes) :
  messages_at mc (S n) data
  = message_at mc data :: messages_at mc n (skipn (message_width mc) data).
Proof.
  unfold messages_at. cbn [seq map Nat.mul skipn]. f_equal.
  rewrite seq_succ_map. apply map_ext. intros i.
  rewrite skipn_skipn. do 2 f_equal. lia.
Qed.

(** With [n] messages' worth of bytes the loop appends the [n] messages in
    buffer order and stops right behind the last one. *)
Lemma from_data_loop_ok (mc : message_class) (n : nat) :
  forall action data,
    (n * message_width mc <= List.length data)%nat ->
    BaseAction.from_data_loop (message_from_data mc) n action data
    = Ok ({| BaseAction.cls := BaseAction.cls action;
             BaseAction.header := BaseAction.header action;
             BaseAction.messages :=
               BaseAction.messages action ++ messages_at mc n data |},
          skipn (n * message_width mc) data).
Proof.
  induction n as [|n IH]; intros action data Hlen;
    cbn [BaseAction.from_data_loop].
  - destruct action; cbn. now rewrite app_nil_r.
  - rewrite message_from_data_ok by lia. cbn [bind].
    rewrite IH by (rewrite length_skipn; lia).
    rewrite messages_at_succ, skipn_skipn.
    cbn [BaseAction.append BaseAction.cls BaseAction.header
         BaseAction.messages].
    rewrite <- app_assoc. cbn [app].
    replace (S n * message_width mc)%nat
      with (n * message_width mc + message_width mc)%nat by lia.
    reflexivity.
Qed.

(** Without them it raises, whatever was decoded before. *)
Lemma from_data_loop_truncated (mc : message_class) (n : nat) :
  forall action data,
    (List.length data < n * message_width mc)%nat ->
    BaseAction.from_data_loop (message_from_data mc) n action data
    = Raise TruncatedInputError.
Proof.
  induction n as [|n IH]; intros action data Hlen;
    cbn [BaseAction.from_data_loop].
  - cbn in Hlen. lia.
  - destruct (Nat.lt_ge_cases (List.length data) (message_width mc))
      as [Hshort | Hfits].
    + now rewrite message_from_data_truncated.
    + rewrite message_from_data_ok by exact Hfits. cbn [bind].
      apply IH. rewrite length_skipn. lia.
Qed.

(** ** The dispatch table *)

Lemma lookup_action_cases (shdr : SubHeader) :
  lookup_action shdr
  = if (action_id shdr =? 0)%Z then Some ActionClearStates
    else if (action_id shdr =? 1)%Z then Some ActionInsertState
    else if (action_id shdr =? 2)%Z then Some ActionInsertAck
    else if (action_id shdr =? 3)%Z then Some ActionUpdateState
    else if (action_id shdr =? 4)%Z then Some ActionUpdateCompressedState
    else if (action_id shdr =? 5)%Z then Some ActionUpdateRequestState
    else if (action_id shdr =? 6)%Z then Some ActionDeleteState
    else if (action_id shdr =? 7)%Z then Some ActionDeleteCompressedState
    else None.
Proof.
  unfold lookup_action. destruct shdr as [id n]. cbn [action_id].
  rewrite Z.geb_leb.
  change (Z.of_nat (List.length actions)) with 15%Z.
  destruct (Z.leb_spec 0 id) as [Hpos | Hneg]; cbn [andb].
  - destruct (Z.ltb_spec id 15) as [Hin | Hout].
    + assert (Hid : id = Z.of_nat (Z.to_nat id)) by lia.
      assert (Hlt : (Z.to_nat id < 15)%nat) by lia.
      revert Hid Hlt. generalize (Z.to_nat id) as k. intros k -> Hlt.
      do 15 (destruct k as [|k]; [reflexivity|]). lia.
    + repeat match goal with
             | |- context [(id =? ?k)%Z] =>
                 destruct (Z.eqb_spec id k); [lia|]
             end.
      reflexivity.
  - repeat match goal with
           | |- context [(id =? ?k)%Z] =>
               destruct (Z.eqb_spec id k); [lia|]
           end.
    reflexivity.
Qed.

Lemma lookup_action_unmapped (shdr : SubHeader) :
  (action_id shdr < 0 \/ 8 <= action_id shdr)%Z <-> lookup_action shdr = None.
Proof.
  rewrite lookup_action_cases.
  repeat match goal with
         | |- context [(action_id shdr =? ?k)%Z] =>
             destruct (Z.eqb_spec (action_id shdr) k)
         end; split; intros Hx; try discriminate; try reflexivity; lia.
Qed.

Lemma build_from_header_dispatched (c : action_class) (shdr : SubHeader)
      (data : bytes) :
  lookup_action shdr = Some c ->
  build_from_header shdr data
  = dispatched c (BaseAction.get_message_class c) shdr data.
Proof.
  intros Hc. unfold build_from_header, dispatched. rewrite Hc.
  reflexivity.
Qed.

(** ** Claims about the action decode and the dispatch *)

(** C1 (as stated, refuted): the claim promises an action with [count]
    messages for every buffer.  With action id 0 (Clear, 20 bytes a
    message), count 1 and the empty buffer the decode raises and no action
    is returned. *)
Lemma from_data_short_buffer_raises :
  lookup_action {| action_id := 0; count := 1 |} = Some ActionClearStates
  /\ BaseAction.from_data ActionClearStates []
       {| action_id := 0; count := 1 |} = Raise TruncatedInputError
  /\ build_from_header {| action_id := 0; count := 1 |} []
     = Raise TruncatedInputError
  /\ ~ (forall (c : action_class) (shdr : SubHeader) (data : bytes),
          lookup_action shdr = Some c ->
          exists action rest,
            BaseAction.from_data c data shdr = Ok (action, rest)
            /\ List.length (BaseAction.messages action)
               = Z.to_nat (count shdr)).
Proof.
  repeat split; try reflexivity.
  intros Hall.
  destruct (Hall ActionClearStates {| action_id := 0; count := 1 |} []
              eq_refl) as [action [rest [Hok _]]].
  discriminate Hok.
Qed.

(** C1 (amended): for every sub-header with a mapped action id and a
    non-negative count, the action decode returns exactly when [count]
    successive decodes of the bound message class succeed, each on the
    remainder of the one before, and then holds their messages in order
    with the final remainder; with count 0 it returns an empty message list
    and the buffer unchanged; and on every buffer that holds [count]
    messages' worth of bytes it does return, with the [count] messages in
    buffer order and the bytes that follow the last one. *)
Theorem from_data_decodes_count_messages :
  forall (c : action_class) (shdr : SubHeader) (data : bytes),
    lookup_action shdr = Some c ->
    (0 <= count shdr)%Z ->
    let mc := BaseAction.get_message_class c in
    let n := Z.to_nat (count shdr) in
    (forall action rest,
        BaseAction.from_data c data shdr = Ok (action, rest)
        <-> BaseAction.cls action = c
            /\ BaseAction.header action = shdr
            /\ decode_run (message_from_data mc) n data
                 (BaseAction.messages action) rest)
    /\ (forall action rest,
           BaseAction.from_data c data shdr = Ok (action, rest) ->
           Z.of_nat (List.length (BaseAction.messages action)) = count shdr)
    /\ (count shdr = 0%Z ->
        BaseAction.from_data c data shdr
        = Ok ({| BaseAction.cls := c; BaseAction.header := shdr;
                 BaseAction.messages := [] |}, data))
    /\ ((n * message_width mc <= List.length data)%nat ->
        let action := {| BaseAction.cls := c; BaseAction.header := shdr;
                         BaseAction.messages := messages_at mc n data |} in
        let rest := skipn (n * message_width mc) data in
        BaseAction.from_data c data shdr = Ok (action, rest)
        /\ build_from_header shdr data = Ok (Some action, PyBytes rest)
        /\ Z.of_nat (List.length (BaseAction.messages action)) = count shdr
        /\ data = firstn (n * message_width mc) data ++ rest).
Proof.
  intros c shdr data Hc Hcount mc n.
  assert (Hiff : forall action rest,
             BaseAction.from_data c data shdr = Ok (action, rest)
             <-> BaseAction.cls action = c
                 /\ BaseAction.header action = shdr
                 /\ decode_run (message_from_data mc) n data
                      (BaseAction.messages action) rest).
  { intros action rest. unfold BaseAction.from_data, Py.range_len.
    fold mc n. rewrite from_data_loop_run. split.
    - intros [msgs [Hrun ->]]. cbn. tauto.
    - intros [Hcls [Hhdr Hrun]]. exists (BaseAction.messages action).
      split; [exact Hrun|]. destruct action; cbn in *. now subst. }
  split; [exact Hiff|]. split; [|split].
  - intros action rest Hok. apply Hiff in Hok as [_ [_ Hrun]].
    apply decode_run_length in Hrun. rewrite Hrun. subst n. lia.
  - intros Hzero. unfold BaseAction.from_data, Py.range_len.
    now rewrite Hzero.
  - intros Hlen action rest.
    assert (Hok : BaseAction.from_data c data shdr = Ok (action, rest)).
    { unfold BaseAction.from_data, Py.range_len. fold mc n.
      now rewrite from_data_loop_ok. }
    split; [exact Hok|]. split; [|split].
    + unfold build_from_header. now rewrite Hc, Hok.
    + subst action. cbn [BaseAction.messages]. unfold messages_at.
      rewrite length_map, length_seq. subst n. lia.
    + subst rest. now rewrite firstn_skipn.
Qed.

Lemma from_data_decodes_count_messages_witness :
  BaseAction.from_data ActionInsertAck (repeat x01 25)
    {| action_id := 2; count := 2 |}
  = Ok ({| BaseAction.cls := ActionInsertAck;
           BaseAction.header := {| action_id := 2; count := 2 |};
           BaseAction.messages :=
             messages_at ClsMessageInsertAck 2 (repeat x01 25) |},
        [x01]).
Proof.
  refine (proj1 (proj2 (proj2 (proj2 (from_data_decodes_count_messages
                                        ActionInsertAck
                                        {| action_id := 2; count := 2 |}
                                        (repeat x01 25) eq_refl _))) _)).
  - cbn. lia.
  - cbn. lia.
Defined.

(** C2: action ids 0 to 7 are bound, in this order, to the Clear,
    InsertState, InsertAck, UpdateState, UpdateCompressed, UpdateRequest,
    DeleteState and DeleteCompressed action classes, each decoding with its
    own message class; ids 8 to 14 are in the table with no class. *)
Theorem build_from_header_table :
  forall (shdr : SubHeader) (data : bytes),
    let bound c mc :=
      lookup_action shdr = Some c
      /\ BaseAction.get_message_class c = mc
      /\ build_from_header shdr data = dispatched c mc shdr data in
    (action_id shdr = 0%Z -> bound ActionClearStates ClsMessageClear)
    /\ (action_id shdr = 1%Z -> bound ActionInsertState ClsMessageState)
    /\ (action_id shdr = 2%Z -> bound ActionInsertAck ClsMessageInsertAck)
    /\ (action_id shdr = 3%Z -> bound ActionUpdateState ClsMessageState)
    /\ (action_id shdr = 4%Z ->
        bound ActionUpdateCompressedState ClsMessageUpdateCompressed)
    /\ (action_id shdr = 5%Z ->
        bound ActionUpdateRequestState ClsMessageUpdateReq)
    /\ (action_id shdr = 6%Z -> bound ActionDeleteState ClsMessageState)
    /\ (action_id shdr = 7%Z ->
        bound ActionDeleteCompressedState ClsMessageDeleteCompressed)
    /\ ((8 <= action_id shdr <= 14)%Z ->
        nth_error actions (Z.to_nat (action_id shdr)) = Some None
        /\ lookup_action shdr = None).
Proof.
  intros shdr data bound.
  assert (Hbound : forall c, lookup_action shdr = Some c ->
                             bound c (BaseAction.get_message_class c)).
  { intros c Hc. repeat split; [exact Hc|].
    now apply build_from_header_dispatched. }
  repeat match goal with |- _ /\ _ => split end;
    intros Hid;
    try (match goal with |- bound ?c _ => apply (Hbound c) end;
         rewrite lookup_action_cases, Hid; reflexivity).
  split.
  - assert (Hk : exists k, (k < 7)%nat
                           /\ Z.to_nat (action_id shdr) = (8 + k)%nat).
    { exists (Z.to_nat (action_id shdr) - 8)%nat. lia. }
    destruct Hk as [k [Hk ->]].
    do 7 (destruct k as [|k]; [reflexivity|]). lia.
  - apply lookup_action_unmapped. lia.
Qed.

Lemma build_from_header_table_witness :
  lookup_action {| action_id := 4; count := 0 |}
  = Some ActionUpdateCompressedState
  /\ BaseAction.get_message_class ActionUpdateCompressedState
     = ClsMessageUpdateCompressed
  /\ build_from_header {| action_id := 4; count := 0 |} [x00]
     = dispatched ActionUpdateCompressedState ClsMessageUpdateCompressed
         {| action_id := 4; count := 0 |} [x00].
Proof.
  exact (proj1 (proj2 (proj2 (proj2 (proj2
           (build_from_header_table {| action_id := 4; count := 0 |} [x00])))))
           eq_refl).
Defined.

(** C3: for an action id without a class (8 to 14, or outside the table)
    the dispatch returns [None] and an empty remainder, whatever the
    buffer holds. *)
Theorem build_from_header_unmapped :
  forall (shdr : SubHeader) (data : bytes),
    ((8 <= action_id shdr <= 14)%Z
     \/ (action_id shdr < 0)%Z
     \/ (Z.of_nat (List.length actions) <= action_id shdr)%Z) ->
    exists rest,
      build_from_header shdr data = Ok (None, rest)
      /\ rest = PyStr EmptyString
      /\ pydata_len rest = 0%nat.
Proof.
  intros shdr data Hid.
  assert (Hnone : lookup_action shdr = None).
  { apply lookup_action_unmapped. cbn in Hid. lia. }
  exists (PyStr EmptyString). unfold build_from_header. rewrite Hnone.
  repeat split.
Qed.

Lemma build_from_header_unmapped_witness :
  exists rest,
    build_from_header {| action_id := 12; count := 3 |} [x01; x02; x03]
    = Ok (None, rest)
    /\ rest = PyStr EmptyString
    /\ pydata_len rest = 0%nat.
Proof.
  apply (build_from_header_unmapped {| action_id := 12; count := 3 |}).
  left. cbn. lia.
Defined.

(** C4: decoding a message from a buffer shorter than the width of its
    class, in particular from any buffer cut to one byte less than that
    width, raises [TruncatedInputError] and returns neither message nor
    remainder; and when one of the [count] iterations of an action decode
    is left with too few bytes, the action decode and the dispatch raise
    [TruncatedInputError] and return no action. *)
Theorem truncated_input_raises :
  forall (mc : message_class) (data : bytes),
    message_cstruct_size mc = Ok (message_width mc)
    /\ ((List.length data < message_width mc)%nat ->
        message_from_data mc data = Raise TruncatedInputError)
    /\ message_from_data mc (firstn (message_width mc - 1) data)
       = Raise TruncatedInputError
    /\ (forall (c : action_class) (shdr : SubHeader) (k : nat),
           BaseAction.get_message_class c = mc ->
           (k < Z.to_nat (count shdr))%nat ->
           (List.length data < (k + 1) * message_width mc)%nat ->
           BaseAction.from_data c data shdr = Raise TruncatedInputError
           /\ (lookup_action shdr = Some c ->
               build_from_header shdr data = Raise TruncatedInputError)).
Proof.
  intros mc data. split; [apply message_cstruct_size_eq|].
  split; [apply message_from_data_truncated|].
  split.
  - apply message_from_data_truncated. rewrite length_firstn.
    destruct mc; cbn [message_width]; lia.
  - intros c shdr k Hmc Hk Hshort.
    assert (Hloop : BaseAction.from_data c data shdr
                    = Raise TruncatedInputError).
    { unfold BaseAction.from_data, Py.range_len. rewrite Hmc.
      apply from_data_loop_truncated. nia. }
    split; [exact Hloop|].
    intros Hc. unfold build_from_header. rewrite Hc, Hloop. reflexivity.
Qed.

Lemma truncated_input_raises_witness :
  message_from_data ClsMessageClear (repeat x2a 19)
  = Raise TruncatedInputError
  /\ BaseAction.from_data ActionClearStates (repeat x2a 59)
       {| action_id := 0; count := 3 |} = Raise TruncatedInputError.
Proof.
  split.
  - apply (proj1 (proj2 (truncated_input_raises ClsMessageClear
                           (repeat x2a 19)))).
    cbn. lia.
  - apply (proj2 (proj2 (proj2 (truncated_input_raises ClsMessageClear
                                  (repeat x2a 59))))
             ActionClearStates {| action_id := 0; count := 3 |} 2%nat).
    + reflexivity.
    + cbn. lia.
    + cbn. lia.
Defined.

(** ** Claims about the message records *)

(** C5 (as stated, refuted): the layout of the state message is not the
    claimed one.  The format gives rt_addr four 4-byte words and ends with
    ten single bytes, 242 bytes in all; the claimed fields add up to 228,
    and a buffer of that many bytes is refused. *)
Lemma state_layout_not_as_claimed :
  (exists fmt items,
      MessageState.get_unpack_format = Ok fmt
      /\ PyStruct.parse_format fmt = Some (PyStruct.Network, items)
      /\ field_widths items <> claimed_state_widths
      /\ PyStruct.size_items PyStruct.Network items 0
         <> list_sum claimed_state_widths)
  /\ from_data MessageState.t (repeat x00 (list_sum claimed_state_widths))
     = Raise TruncatedInputError.
Proof.
  split.
  - exists "!Q 16s36s36s32s32s4I IIIII 4I 4I I B BB 2B BBBBB", state_items.
    repeat split; try reflexivity; intros Heq; vm_compute in Heq;
      discriminate Heq.
  - reflexivity.
Qed.

(** C5 (amended): the state message is decoded in network byte order from,
    in this order, an 8-byte id, a 16-byte interface name, two 36-byte
    state keys, two 32-byte peer blocks, a 16-byte rt_addr read as four
    4-byte words, five 4-byte counters, four 4-byte packet counters, four
    4-byte byte counters, a 4-byte creator id and ten single bytes; these
    are 242 bytes, the declared width, and the decoder consumes exactly
    that many from any buffer that has them and refuses a shorter one. *)
Theorem state_message_layout :
  MessageState.get_unpack_format
  = Ok "!Q 16s36s36s32s32s4I IIIII 4I 4I I B BB 2B BBBBB"
  /\ PyStruct.parse_format "!Q 16s36s36s32s32s4I IIIII 4I 4I I B BB 2B BBBBB"
     = Some (PyStruct.Network, state_items)
  /\ field_widths state_items = wire_state_widths
  /\ get_cstruct_size PFStateKey.t = Ok 36%nat
  /\ state_peer_size = Ok 32%nat
  /\ get_cstruct_size MessageState.t = Ok (list_sum wire_state_widths)
  /\ list_sum wire_state_widths = 242%nat
  /\ forall data : bytes,
      ((242 <= List.length data)%nat ->
       from_data MessageState.t data = Ok (state_at data, skipn 242 data)
       /\ List.length data = (242 + List.length (skipn 242 data))%nat)
      /\ ((List.length data < 242)%nat ->
          from_data MessageState.t data = Raise TruncatedInputError).
Proof.
  repeat match goal with |- _ /\ _ => split end; try reflexivity.
  intros data. split.
  - intros Hlen. split; [now apply MessageState_from_data_ok|].
    rewrite length_skipn. lia.
  - intros Hlen.
    apply (from_data_truncated MessageState.t (H := MessageState.unpackable)
             _ _ _ MessageState_format MessageState_layout).
    cbn. exact Hlen.
Qed.

Lemma state_message_layout_witness :
  from_data MessageState.t (repeat x07 243)
  = Ok (state_at (repeat x07 243), skipn 242 (repeat x07 243)).
Proof.
  refine (proj1 (proj1 (proj2 (proj2 (proj2 (proj2 (proj2 (proj2 (proj2
            state_message_layout)))))) (repeat x07 243)) _)).
  rewrite repeat_length. lia.
Defined.

(** C6: [is_nat] is true exactly when the translated address of the stack
    key, [key[1].addr[1]], differs from that of the wire key,
    [key[0].addr[1]], and false exactly when the two are equal. *)
Theorem is_nat_iff_addresses_differ :
  forall m : MessageState.t,
    let wire := fst (MessageState.key m) in
    let stack := snd (MessageState.key m) in
    (MessageState.is_nat m = true
     <-> snd (PFStateKey.addr stack) <> snd (PFStateKey.addr wire))
    /\ (MessageState.is_nat m = false
        <-> snd (PFStateKey.addr stack) = snd (PFStateKey.addr wire)).
Proof.
  intros m wire stack. unfold MessageState.is_nat. fold wire stack.
  destruct (String.eqb_spec (snd (PFStateKey.addr stack))
                            (snd (PFStateKey.addr wire))) as [Heq | Hne];
    cbn [negb]; split; split; intros Hx;
    try reflexivity; try discriminate; try assumption; try contradiction.
Qed.

Lemma str_parse_decimal (z : Z) : parse_decimal (Py.str z) = Some z.
Proof.
  unfold parse_decimal, Py.str.
  rewrite NilZero.isi.
  - cbn [option_map]. now rewrite DecimalZ.of_to.
  - destruct z; cbn; try discriminate.
    intros Heq. inversion Heq as [Hp].
    now apply DecimalPos.Unsigned.to_uint_nonnil in Hp.
  - destruct z; cbn; try discriminate.
    intros Heq. inversion Heq as [Hp].
    now apply DecimalPos.Unsigned.to_uint_nonnil in Hp.
Qed.

Lemma uint_text_avoids (c : ascii) (d : Decimal.uint) :
  numeral_char c = false -> avoids c (NilEmpty.string_of_uint d) = true.
Proof.
  intros Hc. induction d; cbn [NilEmpty.string_of_uint avoids];
    try reflexivity; rewrite IHd, andb_true_r;
    apply negb_true_iff, Ascii.eqb_neq; intros <-; discriminate Hc.
Qed.

Lemma str_avoids (c : ascii) (z : Z) :
  numeral_char c = false -> avoids c (Py.str z) = true.
Proof.
  intros Hc. unfold Py.str, NilZero.string_of_int, NilZero.string_of_uint.
  assert (Hzero : avoids c "0" = true).
  { cbn [avoids]. rewrite andb_true_r.
    apply negb_true_iff, Ascii.eqb_neq. intros <-. discriminate Hc. }
  destruct (Z.to_int z) as [d | d].
  - destruct d; try exact Hzero; now apply uint_text_avoids.
  - cbn [avoids]. apply andb_true_iff. split.
    + apply negb_true_iff, Ascii.eqb_neq. intros <-. discriminate Hc.
    + destruct d; try exact Hzero; now apply uint_text_avoids.
Qed.

Lemma split_on_whole (c : ascii) (u : string) :
  avoids c u = true -> split_on c u = [u].
Proof.
  induction u as [|a u IH]; cbn [avoids split_on]; [reflexivity|].
  intros Hu. apply andb_true_iff in Hu as [Ha Hu].
  apply negb_true_iff in Ha. rewrite Ha, (IH Hu). reflexivity.
Qed.

Lemma split_on_cut (c : ascii) (u r : string) :
  avoids c u = true ->
  split_on c (u ++ String c r) = u :: split_on c r.
Proof.
  induction u as [|a u IH]; cbn [avoids append split_on].
  - intros _. now rewrite Ascii.eqb_refl.
  - intros Hu. apply andb_true_iff in Hu as [Ha Hu].
    apply negb_true_iff in Ha. rewrite Ha, (IH Hu). reflexivity.
Qed.

(** C7: of a 16-byte address field only the first four bytes are
    formatted, and as a dotted quad: the text is the decimal numerals of
    these four bytes, in order, with a dot between them, so that reading
    the numbers between the dots gives the four byte values back; the
    other twelve bytes have no effect, and a field that starts with
    0x0A 0x00 0x00 0x01 reads "10.0.0.1". *)
Theorem format_addr_first_four_bytes :
  forall addr : bytes,
    List.length addr = 16%nat ->
    exists a b c d tail text,
      addr = [a; b; c; d] ++ tail
      /\ List.length tail = 12%nat
      /\ PFStateKey.format_addr addr = Ok text
      /\ text = (Py.str (byte_value a) ++ "." ++ Py.str (byte_value b)
                   ++ "." ++ Py.str (byte_value c)
                   ++ "." ++ Py.str (byte_value d))%string
      /\ read_dotted text
         = Some [byte_value a; byte_value b; byte_value c; byte_value d]
      /\ Forall (fun z => 0 <= z <= 255)%Z
           [byte_value a; byte_value b; byte_value c; byte_value d]
      /\ (forall tail' : bytes,
             PFStateKey.format_addr ([a; b; c; d] ++ tail') = Ok text)
      /\ ([a; b; c; d] = [x0a; x00; x00; x01] -> text = "10.0.0.1").
Proof.
  intros addr Hlen.
  destruct addr as [|a [|b [|c [|d tail]]]]; cbn in Hlen; try lia.
  exists a, b, c, d, tail.
  exists (Py.str (byte_value a) ++ "." ++ Py.str (byte_value b)
            ++ "." ++ Py.str (byte_value c)
            ++ "." ++ Py.str (byte_value d))%string.
  assert (Hdot : forall z, avoids "." (Py.str z) = true)
    by (intros z; now apply str_avoids).
  split; [reflexivity|]. split; [lia|]. split; [reflexivity|].
  split; [reflexivity|]. split; [|split; [|split]].
  - unfold read_dotted. cbn [append].
    rewrite !split_on_cut, split_on_whole by apply Hdot.
    cbn [parse_all]. now rewrite !str_parse_decimal.
  - repeat constructor; unfold byte_value;
      match goal with
      | |- context [Byte.to_N ?x] => pose proof (Byte.to_N_bounded x)
      end; lia.
  - intros tail'. reflexivity.
  - intros Heq. inversion Heq; subst. reflexivity.
Qed.

Lemma format_addr_first_four_bytes_witness :
  exists a b c d tail text,
    [xc0; xa8; x01; xfe] ++ repeat xff 12 = [a; b; c; d] ++ tail
    /\ List.length tail = 12%nat
    /\ PFStateKey.format_addr ([xc0; xa8; x01; xfe] ++ repeat xff 12)
       = Ok text
    /\ text = (Py.str (byte_value a) ++ "." ++ Py.str (byte_value b)
                 ++ "." ++ Py.str (byte_value c)
                 ++ "." ++ Py.str (byte_value d))%string
    /\ read_dotted text
       = Some [byte_value a; byte_value b; byte_value c; byte_value d]
    /\ Forall (fun z => 0 <= z <= 255)%Z
         [byte_value a; byte_value b; byte_value c; byte_value d]
    /\ (forall tail' : bytes,
           PFStateKey.format_addr ([a; b; c; d] ++ tail') = Ok text)
    /\ ([a; b; c; d] = [x0a; x00; x00; x01] -> text = "10.0.0.1").
Proof.
  apply (format_addr_first_four_bytes ([xc0; xa8; x01; xfe] ++ repeat xff 12)).
  reflexivity.
Defined.

(** C8: [get_protocol_name] gives "ICMP" for protocol 1, "TCP" for 6,
    "UDP" for 17 and "VRRP" for 112; for any other protocol it gives the
    decimal numeral of the number, "250" for 250. *)
Theorem get_protocol_name_table :
  forall m : MessageState.t,
    let p := MessageState.protocol m in
    (p = 1%Z -> MessageState.get_protocol_name m = "ICMP")
    /\ (p = 6%Z -> MessageState.get_protocol_name m = "TCP")
    /\ (p = 17%Z -> MessageState.get_protocol_name m = "UDP")
    /\ (p = 112%Z -> MessageState.get_protocol_name m = "VRRP")
    /\ (p <> 1%Z -> p <> 6%Z -> p <> 17%Z -> p <> 112%Z ->
        MessageState.get_protocol_name m = Py.str p
        /\ parse_decimal (MessageState.get_protocol_name m) = Some p)
    /\ (p = 250%Z -> MessageState.get_protocol_name m = "250").
Proof.
  intros m p. unfold MessageState.get_protocol_name. fold p.
  repeat match goal with |- _ /\ _ => split end;
    try (intros ->; reflexivity).
  intros H1 H6 H17 H112.
  repeat match goal with
         | |- context [(p =? ?k)%Z] =>
             destruct (Z.eqb_spec p k); [contradiction|]
         end.
  split; [reflexivity | apply str_parse_decimal].
Qed.

Lemma get_protocol_name_table_witness :
  MessageState.get_protocol_name (state_at (repeat xfa 242)) = "250".
Proof.
  exact (proj2 (proj2 (proj2 (proj2 (proj2
           (get_protocol_name_table (state_at (repeat xfa 242)))))))
           eq_refl).
Defined.

(** C9: a buffer of 12 bytes (or more) decodes as a DeleteCompressed, as
    an InsertAck and as an UpdateRequest message to the same id, the
    big-endian value of bytes 0 to 7, the same creator, the big-endian
    value of bytes 8 to 11, and the same remainder, the bytes from the
    twelfth on: the three decoders differ in the class of the record
    only. *)
Theorem id_creator_decoders_agree :
  forall data : bytes,
    (12 <= List.length data)%nat ->
    let id := PyStruct.be_int (Py.slice data 0 8) in
    let creator := PyStruct.be_int (Py.slice data 8 4) in
    let rest := skipn 12 data in
    from_data MessageDeleteCompressed.t data
    = Ok ({| MessageDeleteCompressed.id := id;
             MessageDeleteCompressed.creator := creator |}, rest)
    /\ from_data MessageInsertAck.t data
       = Ok ({| MessageInsertAck.id := id;
                MessageInsertAck.creator := creator |}, rest)
    /\ from_data MessageUpdateReq.t data
       = Ok ({| MessageUpdateReq.id := id;
                MessageUpdateReq.creator := creator |}, rest)
    /\ (forall mc,
           mc = ClsMessageDeleteCompressed \/ mc = ClsMessageInsertAck
           \/ mc = ClsMessageUpdateReq ->
           exists m, message_from_data mc data = Ok (m, rest)
                     /\ class_of m = mc
                     /\ id_creator m = Some (id, creator))
    /\ data = Py.slice data 0 8 ++ Py.slice data 8 4 ++ rest
    /\ (List.length data = 12%nat -> rest = []).
Proof.
  intros data Hlen id creator rest.
  split; [now apply MessageDeleteCompressed_from_data_ok|].
  split; [now apply MessageInsertAck_from_data_ok|].
  split; [now apply MessageUpdateReq_from_data_ok|].
  split; [|split].
  - intros mc [-> | [-> | ->]];
      (eexists; split;
       [apply message_from_data_ok; exact Hlen | split; reflexivity]).
  - unfold Py.slice. cbn [skipn]. subst rest.
    rewrite <- (firstn_skipn 8 data) at 1. f_equal.
    rewrite <- (firstn_skipn 4 (skipn 8 data)) at 1. f_equal.
    now rewrite skipn_skipn.
  - intros Hexact. subst rest. apply skipn_all2. lia.
Qed.

Lemma id_creator_decoders_agree_witness :
  from_data MessageDeleteCompressed.t
    [x00; x00; x00; x00; x00; x00; x01; x02; x00; x00; x00; x07]
  = Ok ({| MessageDeleteCompressed.id := 258;
           MessageDeleteCompressed.creator := 7 |}, [])
  /\ from_data MessageInsertAck.t
       [x00; x00; x00; x00; x00; x00; x01; x02; x00; x00; x00; x07]
     = Ok ({| MessageInsertAck.id := 258;
              MessageInsertAck.creator := 7 |}, [])
  /\ from_data MessageUpdateReq.t
       [x00; x00; x00; x00; x00; x00; x01; x02; x00; x00; x00; x07]
     = Ok ({| MessageUpdateReq.id := 258;
              MessageUpdateReq.creator := 7 |}, []).
Proof.
  pose proof (id_creator_decoders_agree
                [x00; x00; x00; x00; x00; x00; x01; x02; x00; x00; x00; x07]
                (le_n 12)) as [Hdel [Hack [Hreq _]]].
  exact (conj Hdel (conj Hack Hreq)).
Defined.

(** C10: a Clear message keeps the 16-byte interface field as it is on the
    wire, NUL bytes included, while a state message keeps only the bytes
    of that field before its first NUL; on a field that holds a NUL the
    two differ. *)
Theorem interface_verbatim_or_cut_at_nul :
  forall field : bytes,
    List.length field = 16%nat ->
    (forall tail : bytes,
        (4 <= List.length tail)%nat ->
        exists m rest,
          from_data MessageClear.t (field ++ tail) = Ok (m, rest)
          /\ MessageClear.interface m = field)
    /\ (forall idb tail : bytes,
           List.length idb = 8%nat ->
           (218 <= List.length tail)%nat ->
           exists m rest,
             from_data MessageState.t (idb ++ field ++ tail) = Ok (m, rest)
             /\ MessageState.interface m = prefix_before x00 field
             /\ ~ In x00 (MessageState.interface m)
             /\ exists cut,
                 field = MessageState.interface m ++ cut
                 /\ (cut = [] \/ exists tl, cut = x00 :: tl))
    /\ (In x00 field -> prefix_before x00 field <> field)
    /\ (~ In x00 field -> prefix_before x00 field = field).
Proof.
  intros field Hlen. split; [|split; [|split]].
  - intros tail Htail. do 2 eexists. split.
    + apply MessageClear_from_data_ok. rewrite length_app. lia.
    + cbn [MessageClear.interface].
      pose proof (slice_app_left field tail) as Hs.
      rewrite Hlen in Hs. exact Hs.
  - intros idb tail Hid Htail. do 2 eexists. split.
    + apply MessageState_from_data_ok. rewrite !length_app. lia.
    + cbn [MessageState.interface state_at].
      pose proof (slice_app_right idb field tail) as Hs.
      rewrite Hid, Hlen in Hs. rewrite Hs.
      split; [reflexivity|]. split; [apply prefix_before_free|].
      apply prefix_before_cut.
  - intros Hin Heq. apply (prefix_before_free x00 field).
    now rewrite Heq.
  - apply prefix_before_whole.
Qed.

Lemma interface_verbatim_or_cut_at_nul_witness :
  (exists m rest,
      from_data MessageClear.t
        (([x65; x6d; x30] ++ repeat x00 13) ++ [x00; x00; x00; x01])
      = Ok (m, rest)
      /\ MessageClear.interface m = [x65; x6d; x30] ++ repeat x00 13)
  /\ prefix_before x00 ([x65; x6d; x30] ++ repeat x00 13)
     <> [x65; x6d; x30] ++ repeat x00 13.
Proof.
  pose proof (interface_verbatim_or_cut_at_nul
                ([x65; x6d; x30] ++ repeat x00 13) eq_refl)
    as [Hclear [_ [Hdiff _]]].
  split.
  - apply (Hclear [x00; x00; x00; x01]). cbn. lia.
  - apply Hdiff. cbn. tauto.
Defined.

(** * Further properties *)

(** ** Big-endian values and decimal numerals *)

Lemma be_int_range (bs : bytes) :
  (0 <= PyStruct.be_int bs < 256 ^ Z.of_nat (List.length bs))%Z.
Proof.
  unfold PyStruct.be_int.
  assert (Hgen : forall (l : bytes) (acc m : Z),
             (0 <= acc < m)%Z ->
             (0 <= fold_left
                     (fun a b => (a * 256 + Z.of_N (Byte.to_N b))%Z) l acc
              < m * 256 ^ Z.of_nat (List.length l))%Z).
  { induction l as [|b l IH]; intros acc m Hacc.
    - cbn [fold_left List.length]. change (256 ^ Z.of_nat 0)%Z with 1%Z. lia.
    - cbn [fold_left List.length].
      pose proof (Byte.to_N_bounded b) as Hb.
      rewrite Nat2Z.inj_succ, Z.pow_succ_r by lia.
      specialize (IH (acc * 256 + Z.of_N (Byte.to_N b))%Z (m * 256)%Z).
      replace (m * (256 * 256 ^ Z.of_nat (List.length l)))%Z
        with (m * 256 * 256 ^ Z.of_nat (List.length l))%Z by ring.
      apply IH. lia. }
  specialize (Hgen bs 0%Z 1%Z). rewrite Z.mul_1_l in Hgen. apply Hgen. lia.
Qed.

Lemma be_int_slice_range (data : bytes) (off len : nat) :
  (0 <= PyStruct.be_int (Py.slice data off len) < 256 ^ Z.of_nat len)%Z.
Proof.
  pose proof (be_int_range (Py.slice data off len)) as [Hlo Hhi].
  split; [exact Hlo|].
  eapply Z.lt_le_trans; [exact Hhi|].
  apply Z.pow_le_mono_r; [lia|].
  unfold Py.slice. rewrite length_firstn. lia.
Qed.

Lemma str_injective (a b : Z) : Py.str a = Py.str b -> a = b.
Proof.
  intros Heq. apply (f_equal parse_decimal) in Heq.
  rewrite !str_parse_decimal in Heq. now inversion Heq.
Qed.

Lemma byte_to_N_injective (x y : byte) : Byte.to_N x = Byte.to_N y -> x = y.
Proof.
  intros Heq. pose proof (Byte.of_to_N x) as Hx.
  rewrite Heq, Byte.of_to_N in Hx. now inversion Hx.
Qed.

(** Two texts that agree and are cut at the first [c] agree part by part. *)
Lemma cut_at_char (c : ascii) (u u' r r' : string) :
  avoids c u = true -> avoids c u' = true ->
  (u ++ String c r)%string = (u' ++ String c r')%string ->
  u = u' /\ r = r'.
Proof.
  revert u'. induction u as [|a u IH]; intros [|a' u'] Hu Hu' Heq;
    cbn [append avoids] in *.
  - inversion Heq. now split.
  - inversion Heq; subst. rewrite Ascii.eqb_refl in Hu'. discriminate.
  - inversion Heq; subst. rewrite Ascii.eqb_refl in Hu. discriminate.
  - inversion Heq; subst.
    apply andb_true_iff in Hu as [_ Hu]. apply andb_true_iff in Hu' as [_ Hu'].
    destruct (IH u' Hu Hu' H1) as [-> ->]. now split.
Qed.

Lemma append_cancel (p s s' : string) :
  (p ++ s)%string = (p ++ s')%string -> s = s'.
Proof.
  induction p as [|a p IH]; cbn [append]; intros Heq; [exact Heq|].
  inversion Heq. now apply IH.
Qed.

Lemma dotted_quad_injective (a b c d a' b' c' d' : byte) :
  Py.dotted_quad a b c d = Py.dotted_quad a' b' c' d' ->
  [a; b; c; d] = [a'; b'; c'; d'].
Proof.
  unfold Py.dotted_quad. cbn [append]. intros Heq.
  assert (Hdot : forall z, avoids "." (Py.str z) = true)
    by (intros z; now apply str_avoids).
  assert (Hbyte : forall x y : byte,
             Py.str (Z.of_N (Byte.to_N x)) = Py.str (Z.of_N (Byte.to_N y)) ->
             x = y).
  { intros x y Hxy. apply str_injective in Hxy.
    apply byte_to_N_injective. lia. }
  apply cut_at_char in Heq as [Ha Heq]; try apply Hdot.
  apply cut_at_char in Heq as [Hb Heq]; try apply Hdot.
  apply cut_at_char in Heq as [Hc Hd]; try apply Hdot.
  now rewrite (Hbyte _ _ Ha), (Hbyte _ _ Hb), (Hbyte _ _ Hc), (Hbyte _ _ Hd).
Qed.

(** ** Slices of a concatenation *)

Lemma slice_app_within (l r : bytes) (off len : nat) :
  (off + len <= List.length l)%nat ->
  Py.slice (l ++ r) off len = Py.slice l off len.
Proof.
  intros Hle. unfold Py.slice.
  rewrite skipn_app.
  replace (off - List.length l)%nat with 0%nat by lia. cbn [skipn].
  rewrite firstn_app, length_skipn.
  replace (len - (List.length l - off))%nat with 0%nat by lia.
  cbn [firstn]. apply app_nil_r.
Qed.

Lemma slice_of_slice (data : bytes) (off len off' len' : nat) :
  (off' + len' <= len)%nat ->
  Py.slice (Py.slice data off len) off' len'
  = Py.slice data (off + off') len'.
Proof.
  intros Hle. unfold Py.slice.
  rewrite skipn_firstn_comm, firstn_firstn, skipn_skipn.
  f_equal; [lia|]. f_equal. lia.
Qed.

Lemma firstn_of_slice (data : bytes) (off len k : nat) :
  (k <= len)%nat -> firstn k (Py.slice data off len) = Py.slice data off k.
Proof.
  intros Hle. unfold Py.slice. rewrite firstn_firstn. f_equal. lia.
Qed.

Lemma prefix_before_length (sep : byte) (bs : bytes) :
  (List.length (prefix_before sep bs) <= List.length bs)%nat.
Proof.
  induction bs as [|b r IH]; cbn; [lia|].
  destruct (Byte.eqb b sep); cbn; lia.
Qed.

(** A message is read from the first [message_width] bytes only. *)
Lemma message_at_prefix (mc : message_class) (front tail : bytes) :
  (message_width mc <= List.length front)%nat ->
  message_at mc (front ++ tail) = message_at mc front.
Proof.
  intros Hlen. destruct mc; cbn [message_width] in Hlen;
    unfold message_at, state_at;
    rewrite !slice_app_within by lia; reflexivity.
Qed.

Lemma messages_at_prefix (mc : message_class) (n : nat) (front tail : bytes) :
  (n * message_width mc <= List.length front)%nat ->
  messages_at mc n (front ++ tail) = messages_at mc n front.
Proof.
  intros Hlen. unfold messages_at. apply map_ext_in. intros i Hi.
  apply in_seq in Hi.
  assert (Hfit : (i * message_width mc + message_width mc
                  <= List.length front)%nat) by nia.
  rewrite skipn_app.
  replace (i * message_width mc - List.length front)%nat with 0%nat by lia.
  cbn [skipn]. apply message_at_prefix. rewrite length_skipn. lia.
Qed.

(** ** The loop as a list of decodes *)

Lemma from_data_loop_decode_many (decode : bytes -> result (message * bytes))
      (n : nat) :
  forall action data,
    BaseAction.from_data_loop decode n action data
    = ('(msgs, rest) <- decode_many decode n data ;;
       Ok ({| BaseAction.cls := BaseAction.cls action;
              BaseAction.header := BaseAction.header action;
              BaseAction.messages := BaseAction.messages action ++ msgs |},
           rest)).
Proof.
  induction n as [|n IH]; intros action data;
    cbn [BaseAction.from_data_loop decode_many bind].
  - destruct action; cbn. now rewrite app_nil_r.
  - destruct (decode data) as [[msg data']|e]; cbn [bind]; [|reflexivity].
    rewrite IH.
    destruct (decode_many decode n data') as [[msgs rest]|e]; cbn [bind];
      [|reflexivity].
    cbn [BaseAction.append BaseAction.cls BaseAction.header
         BaseAction.messages].
    now rewrite <- app_assoc.
Qed.

Lemma payload_from_data (c : action_class) (data : bytes) (shdr : SubHeader) :
  payload (BaseAction.from_data c data shdr)
  = decode_many (message_from_data (BaseAction.get_message_class c))
      (Z.to_nat (count shdr)) data.
Proof.
  unfold payload, BaseAction.from_data, Py.range_len.
  rewrite from_data_loop_decode_many.
  destruct (decode_many _ _ data) as [[msgs rest]|e]; reflexivity.
Qed.

Lemma decode_many_add (decode : bytes -> result (message * bytes))
      (n m : nat) :
  forall data,
    decode_many decode (n + m) data
    = ('(ms1, r1) <- decode_many decode n data ;;
       '(ms2, r2) <- decode_many decode m r1 ;;
       Ok (ms1 ++ ms2, r2)).
Proof.
  induction n as [|n IH]; intros data; cbn [Nat.add decode_many bind].
  - destruct (decode_many decode m data) as [[ms r]|e]; reflexivity.
  - destruct (decode data) as [[msg data']|e]; cbn [bind]; [|reflexivity].
    rewrite IH.
    destruct (decode_many decode n data') as [[ms1 r1]|e]; cbn [bind];
      [|reflexivity].
    destruct (decode_many decode m r1) as [[ms2 r2]|e]; reflexivity.
Qed.

Lemma message_from_data_class (mc : message_class) (data : bytes)
      (m : message) (rest : bytes) :
  message_from_data mc data = Ok (m, rest) -> class_of m = mc.
Proof.
  destruct mc; cbn [message_from_data]; unfold tagged;
    match goal with
    | |- context [from_data ?T data] =>
        destruct (from_data T data) as [[r d]|e]
    end; cbn [bind]; intros Heq; inversion Heq; reflexivity.
Qed.

Lemma decode_many_classes (mc : message_class) (n : nat) :
  forall data msgs rest,
    decode_many (message_from_data mc) n data = Ok (msgs, rest) ->
    List.length msgs = n /\ Forall (fun m => class_of m = mc) msgs.
Proof.
  induction n as [|n IH]; intros data msgs rest; cbn [decode_many].
  - intros Heq. inversion Heq. split; [reflexivity | constructor].
  - destruct (message_from_data mc data) as [[msg data']|e] eqn:Hmsg;
      cbn [bind]; [|discriminate].
    destruct (decode_many (message_from_data mc) n data')
      as [[ms r]|e] eqn:Hrest; cbn [bind]; [|discriminate].
    intros Heq. inversion Heq; subst.
    destruct (IH _ _ _ Hrest) as [Hlen Hall].
    split; [cbn; now rewrite Hlen|].
    constructor; [now apply message_from_data_class in Hmsg | exact Hall].
Qed.

Lemma from_data_payload_ok (c : action_class) (data : bytes)
      (shdr : SubHeader) (a : BaseAction.t) (rest : bytes) :
  BaseAction.from_data c data shdr = Ok (a, rest) ->
  decode_many (message_from_data (BaseAction.get_message_class c))
    (Z.to_nat (count shdr)) data = Ok (BaseAction.messages a, rest).
Proof.
  intros Hok. rewrite <- payload_from_data, Hok. reflexivity.
Qed.

(** The action decode on any buffer: it has the bytes or it raises. *)
Lemma from_data_outcome (c : action_class) (data : bytes) (shdr : SubHeader) :
  let mc := BaseAction.get_message_class c in
  let n := Z.to_nat (count shdr) in
  BaseAction.from_data c data shdr
  = if (n * message_width mc <=? List.length data)%nat
    then Ok ({| BaseAction.cls := c; BaseAction.header := shdr;
                BaseAction.messages := messages_at mc n data |},
             skipn (n * message_width mc) data)
    else Raise TruncatedInputError.
Proof.
  intros mc n. unfold BaseAction.from_data, Py.range_len. fold mc n.
  destruct (Nat.leb_spec (n * message_width mc) (List.length data))
    as [Hfits | Hshort].
  - now rewrite from_data_loop_ok.
  - now apply from_data_loop_truncated.
Qed.

Lemma skipn_app_exact (l r : bytes) : skipn (List.length l) (l ++ r) = r.
Proof.
  rewrite skipn_app, skipn_all, Nat.sub_diag. reflexivity.
Qed.

Lemma MessageUpdateCompressed_from_data_ok (data : bytes) :
  (84 <= List.length data)%nat ->
  from_data MessageUpdateCompressed.t data
  = Ok ({| MessageUpdateCompressed.id := PyStruct.be_int (Py.slice data 0 8);
           MessageUpdateCompressed.creator :=
             PyStruct.be_int (Py.slice data 72 4);
           MessageUpdateCompressed.dst := Py.slice data 40 32;
           MessageUpdateCompressed.src := Py.slice data 8 32;
           MessageUpdateCompressed.expire :=
             PyStruct.be_int (Py.slice data 76 4);
           MessageUpdateCompressed.timeout :=
             PyStruct.be_int (Py.slice data 80 1) |},
        skipn 84 data).
Proof.
  intros Hlen.
  rewrite (from_data_fields MessageUpdateCompressed.t
             (H := MessageUpdateCompressed.unpackable)
             _ _ _ MessageUpdateCompressed_format
             MessageUpdateCompressed_layout)
    by (cbn; exact Hlen).
  unpack_fields. rewrite !slice_firstn by (cbn; lia). reflexivity.
Qed.

Lemma MessageState_from_data_inv (data : bytes) (m : MessageState.t)
      (rest : bytes) :
  from_data MessageState.t data = Ok (m, rest) ->
  (242 <= List.length data)%nat /\ m = state_at data /\ rest = skipn 242 data.
Proof.
  intros Hok.
  destruct (Nat.lt_ge_cases (List.length data) 242) as [Hshort | Hfits].
  - rewrite (from_data_truncated MessageState.t (H := MessageState.unpackable)
               _ _ _ MessageState_format MessageState_layout) in Hok
      by (cbn; exact Hshort).
    discriminate Hok.
  - rewrite MessageState_from_data_ok in Hok by exact Hfits.
    inversion Hok. now repeat split.
Qed.

Lemma ipv4_text_eq (f g : bytes) :
  (4 <= List.length f)%nat -> (4 <= List.length g)%nat ->
  (ipv4_text f = ipv4_text g <-> firstn 4 f = firstn 4 g).
Proof.
  intros Hf Hg.
  destruct f as [|a [|b [|c [|d f]]]]; cbn in Hf; try lia.
  destruct g as [|a' [|b' [|c' [|d' g]]]]; cbn in Hg; try lia.
  unfold ipv4_text. cbn [nth firstn]. split.
  - apply dotted_quad_injective.
  - intros Heq. inversion Heq. reflexivity.
Qed.

(** ** Further properties of the action decode *)

(** X1: an action decode succeeds exactly when the buffer holds count
    messages' worth of bytes; when it succeeds the remainder is the buffer
    less exactly that many leading bytes, and when it fails the error is
    always [TruncatedInputError]. *)
Theorem from_data_succeeds_iff_enough_bytes :
  forall (c : action_class) (shdr : SubHeader) (data : bytes),
    let need := (Z.to_nat (count shdr)
                 * message_width (BaseAction.get_message_class c))%nat in
    ((exists action rest, BaseAction.from_data c data shdr = Ok (action, rest))
     <-> (need <= List.length data)%nat)
    /\ (forall action rest,
           BaseAction.from_data c data shdr = Ok (action, rest) ->
           rest = skipn need data
           /\ List.length data = (need + List.length rest)%nat)
    /\ (forall e,
           BaseAction.from_data c data shdr = Raise e ->
           e = TruncatedInputError).
Proof.
  intros c shdr data need.
  pose proof (from_data_outcome c data shdr) as Hout. cbv zeta in Hout.
  fold need in Hout.
  destruct (Nat.leb_spec need (List.length data)) as [Hfits | Hshort];
    rewrite Hout; split; [| split | | split].
  - split; [intros _; exact Hfits | intros _; now do 2 eexists].
  - intros action rest Heq. inversion Heq; subst.
    split; [reflexivity|]. rewrite length_skipn. lia.
  - intros e Heq. discriminate Heq.
  - split; [intros [a [r Heq]]; discriminate Heq | lia].
  - intros action rest Heq. discriminate Heq.
  - intros e Heq. now inversion Heq.
Qed.

Lemma from_data_succeeds_iff_enough_bytes_witness :
  exists action rest,
    BaseAction.from_data ActionClearStates (repeat x00 41)
      {| action_id := 0; count := 2 |} = Ok (action, rest).
Proof.
  apply (proj2 (proj1 (from_data_succeeds_iff_enough_bytes
                         ActionClearStates {| action_id := 0; count := 2 |}
                         (repeat x00 41)))).
  cbn. lia.
Defined.

(** X2: with a count that is zero or negative the loop body never runs:
    the action decode returns the empty action and the whole buffer, on
    every buffer, the empty one included. *)
Theorem from_data_nonpositive_count :
  forall (c : action_class) (shdr : SubHeader) (data : bytes),
    (count shdr <= 0)%Z ->
    BaseAction.from_data c data shdr
    = Ok ({| BaseAction.cls := c; BaseAction.header := shdr;
             BaseAction.messages := [] |}, data)
    /\ (lookup_action shdr = Some c ->
        build_from_header shdr data
        = Ok (Some {| BaseAction.cls := c; BaseAction.header := shdr;
                      BaseAction.messages := [] |}, PyBytes data)).
Proof.
  intros c shdr data Hcount.
  assert (Hok : BaseAction.from_data c data shdr
                = Ok ({| BaseAction.cls := c; BaseAction.header := shdr;
                         BaseAction.messages := [] |}, data)).
  { unfold BaseAction.from_data, Py.range_len.
    replace (Z.to_nat (count shdr)) with 0%nat by lia. reflexivity. }
  split; [exact Hok|].
  intros Hc. unfold build_from_header. now rewrite Hc, Hok.
Qed.

Lemma from_data_nonpositive_count_witness :
  BaseAction.from_data ActionInsertState [] {| action_id := 1; count := -7 |}
  = Ok ({| BaseAction.cls := ActionInsertState;
           BaseAction.header := {| action_id := 1; count := -7 |};
           BaseAction.messages := [] |}, []).
Proof.
  apply (from_data_nonpositive_count ActionInsertState
           {| action_id := 1; count := -7 |} []).
  cbn. lia.
Defined.

(** X3: every message of a decoded action is an instance of the message
    class of the action's class, and there are as many as the loop ran. *)
Theorem action_messages_of_bound_class :
  forall (c : action_class) (shdr : SubHeader) (data : bytes)
         (action : BaseAction.t) (rest : bytes),
    BaseAction.from_data c data shdr = Ok (action, rest) ->
    List.length (BaseAction.messages action) = Z.to_nat (count shdr)
    /\ Forall (fun m => class_of m = BaseAction.get_message_class c)
         (BaseAction.messages action).
Proof.
  intros c shdr data action rest Hok.
  apply from_data_payload_ok in Hok.
  now apply decode_many_classes in Hok.
Qed.

Lemma action_messages_of_bound_class_witness :
  List.length (messages_at ClsMessageUpdateReq 1 (repeat x01 12)) = 1%nat
  /\ Forall (fun m => class_of m = ClsMessageUpdateReq)
       (messages_at ClsMessageUpdateReq 1 (repeat x01 12)).
Proof.
  apply (action_messages_of_bound_class ActionUpdateRequestState
           {| action_id := 5; count := 1 |} (repeat x01 12)
           {| BaseAction.cls := ActionUpdateRequestState;
              BaseAction.header := {| action_id := 5; count := 1 |};
              BaseAction.messages :=
                messages_at ClsMessageUpdateReq 1 (repeat x01 12) |}
           []).
  reflexivity.
Defined.

(** X4: the bytes behind the count messages have no part in the decode:
    when the buffer is [front ++ tail] with [front] exactly count messages
    long, the action holds the messages of [front] and the remainder is
    [tail], whatever [tail] is. *)
Theorem from_data_ignores_trailing_bytes :
  forall (c : action_class) (shdr : SubHeader) (front tail : bytes),
    let mc := BaseAction.get_message_class c in
    let n := Z.to_nat (count shdr) in
    List.length front = (n * message_width mc)%nat ->
    BaseAction.from_data c (front ++ tail) shdr
    = Ok ({| BaseAction.cls := c; BaseAction.header := shdr;
             BaseAction.messages := messages_at mc n front |}, tail).
Proof.
  intros c shdr front tail mc n Hlen.
  pose proof (from_data_outcome c (front ++ tail) shdr) as Hout.
  cbv zeta in Hout. fold mc n in Hout. rewrite Hout.
  replace (n * message_width mc <=? List.length (front ++ tail))%nat
    with true
    by (symmetry; apply Nat.leb_le; rewrite length_app; lia).
  rewrite messages_at_prefix by lia.
  rewrite <- Hlen. now rewrite skipn_app_exact.
Qed.

Lemma from_data_ignores_trailing_bytes_witness :
  BaseAction.from_data ActionInsertAck (repeat x01 24 ++ [x07; x08])
    {| action_id := 2; count := 2 |}
  = Ok ({| BaseAction.cls := ActionInsertAck;
           BaseAction.header := {| action_id := 2; count := 2 |};
           BaseAction.messages :=
             messages_at ClsMessageInsertAck 2 (repeat x01 24) |},
        [x07; x08]).
Proof.
  apply (from_data_ignores_trailing_bytes ActionInsertAck
           {| action_id := 2; count := 2 |} (repeat x01 24) [x07; x08]).
  reflexivity.
Defined.

(** X5: decoding [n + m] messages is decoding [n] messages and then [m]
    more from what the first decode left: the messages are those of the
    first decode followed by those of the second, the remainder is that of
    the second, and an error of either is the error of the whole. *)
Theorem from_data_splits_at_any_count :
  forall (c : action_class) (id n m : Z) (data : bytes),
    (0 <= n)%Z -> (0 <= m)%Z ->
    BaseAction.from_data c data {| action_id := id; count := n + m |}
    = ('(first, rest) <-
         BaseAction.from_data c data {| action_id := id; count := n |} ;;
       '(second, rest) <-
         BaseAction.from_data c rest {| action_id := id; count := m |} ;;
       Ok ({| BaseAction.cls := c;
              BaseAction.header := {| action_id := id; count := n + m |};
              BaseAction.messages :=
                BaseAction.messages first ++ BaseAction.messages second |},
           rest)).
Proof.
  intros c id n m data Hn Hm.
  unfold BaseAction.from_data, Py.range_len. cbn [count].
  rewrite !from_data_loop_decode_many.
  rewrite Z2Nat.inj_add by lia. rewrite decode_many_add.
  destruct (decode_many _ (Z.to_nat n) data) as [[ms1 r1]|e]; cbn [bind];
    [|reflexivity].
  rewrite from_data_loop_decode_many.
  destruct (decode_many _ (Z.to_nat m) r1) as [[ms2 r2]|e]; reflexivity.
Qed.

Lemma from_data_splits_at_any_count_witness :
  BaseAction.from_data ActionClearStates (repeat x00 61)
    {| action_id := 0; count := 1 + 2 |}
  = ('(first, rest) <-
       BaseAction.from_data ActionClearStates (repeat x00 61)
         {| action_id := 0; count := 1 |} ;;
     '(second, rest) <-
       BaseAction.from_data ActionClearStates rest
         {| action_id := 0; count := 2 |} ;;
     Ok ({| BaseAction.cls := ActionClearStates;
            BaseAction.header := {| action_id := 0; count := 1 + 2 |};
            BaseAction.messages :=
              BaseAction.messages first ++ BaseAction.messages second |},
         rest)).
Proof.
  apply (from_data_splits_at_any_count ActionClearStates 0 1 2
           (repeat x00 61)); lia.
Defined.

(** X6: the insert, update and delete state actions read the same
    messages and leave the same remainder on every buffer, and fail
    together; only the class of the action differs. *)
Theorem state_actions_decode_alike :
  forall (shdr : SubHeader) (data : bytes),
    payload (BaseAction.from_data ActionInsertState data shdr)
    = payload (BaseAction.from_data ActionUpdateState data shdr)
    /\ payload (BaseAction.from_data ActionUpdateState data shdr)
       = payload (BaseAction.from_data ActionDeleteState data shdr).
Proof.
  intros shdr data. now rewrite !payload_from_data.
Qed.

(** ** Further properties of the message records *)

(** X7: every numeric field of a decoded state message fits the unsigned
    width of its wire field: 64 bits for the id, 32 for creator, expire,
    creation, rule and the packet and byte counters, 16 for the ports of
    both keys, 8 for protocol, direction, timeout and log; and the
    interface name has at most 16 bytes. *)
Theorem state_message_fields_in_range :
  forall (data : bytes) (m : MessageState.t) (rest : bytes),
    from_data MessageState.t data = Ok (m, rest) ->
    uint 64 (MessageState.id m)
    /\ uint 32 (MessageState.creator m)
    /\ uint 32 (MessageState.expire m)
    /\ uint 32 (MessageState.creation m)
    /\ uint 32 (MessageState.rule m)
    /\ quad_uint32 (MessageState.packets m)
    /\ quad_uint32 (MessageState.bytes m)
    /\ ports_uint16 (fst (MessageState.key m))
    /\ ports_uint16 (snd (MessageState.key m))
    /\ uint 8 (MessageState.protocol m)
    /\ uint 8 (MessageState.direction m)
    /\ uint 8 (MessageState.timeout m)
    /\ uint 8 (MessageState.log m)
    /\ (List.length (MessageState.interface m) <= 16)%nat.
Proof.
  intros data m rest Hok.
  apply MessageState_from_data_inv in Hok as [Hlen [-> _]].
  unfold state_at, quad_uint32, ports_uint16, state_key_at, uint.
  cbn [MessageState.id MessageState.creator MessageState.expire
       MessageState.creation MessageState.rule MessageState.packets
       MessageState.bytes MessageState.key MessageState.protocol
       MessageState.direction MessageState.timeout MessageState.log
       MessageState.interface PFStateKey.port fst snd].
  repeat match goal with
         | |- (0 <= PyStruct.be_int (Py.slice ?d ?o ?l) < _)%Z =>
             exact (be_int_slice_range d o l)
         | |- _ /\ _ => split
         end.
  etransitivity; [apply prefix_before_length|].
  unfold Py.slice. rewrite length_firstn. lia.
Qed.

Lemma state_message_fields_in_range_witness :
  uint 64 (MessageState.id (state_at (repeat xff 242)))
  /\ uint 8 (MessageState.protocol (state_at (repeat xff 242)))
  /\ ports_uint16 (snd (MessageState.key (state_at (repeat xff 242)))).
Proof.
  pose proof (state_message_fields_in_range (repeat xff 242)
                (state_at (repeat xff 242)) [] eq_refl) as Hall.
  repeat split; apply Hall.
Defined.

(** X8: a state key is read from 36 bytes: the first four bytes of each
    16-byte address field as a dotted quad and two big-endian 16-bit
    ports; the other twelve bytes of each address field do not show in the
    key, the bytes behind the key are handed back, and fewer than 36 bytes
    are refused. *)
Theorem state_key_decode :
  forall (a1 pad1 a2 pad2 ports tail : bytes),
    List.length a1 = 4%nat -> List.length pad1 = 12%nat ->
    List.length a2 = 4%nat -> List.length pad2 = 12%nat ->
    List.length ports = 4%nat ->
    from_data PFStateKey.t (a1 ++ pad1 ++ a2 ++ pad2 ++ ports ++ tail)
    = Ok ({| PFStateKey.addr := (ipv4_text a1, ipv4_text a2);
             PFStateKey.port := (PyStruct.be_int (firstn 2 ports),
                                 PyStruct.be_int (skipn 2 ports)) |},
          tail)
    /\ (forall short : bytes,
           (List.length short < 36)%nat ->
           from_data PFStateKey.t short = Raise TruncatedInputError).
Proof.
  intros a1 pad1 a2 pad2 ports tail H1 Hp1 H2 Hp2 Hports. split.
  - rewrite PFStateKey_from_data_ok by (rewrite !length_app; lia).
    set (front := a1 ++ pad1 ++ a2 ++ pad2 ++ ports).
    assert (Hfront : List.length front = 36%nat)
      by (unfold front; rewrite !length_app; lia).
    replace (a1 ++ pad1 ++ a2 ++ pad2 ++ ports ++ tail)
      with (front ++ tail) by (unfold front; now rewrite <- !app_assoc).
    replace (skipn 36 (front ++ tail)) with tail
      by (rewrite <- Hfront; now rewrite skipn_app_exact).
    f_equal. f_equal.
    unfold state_key_at. rewrite !slice_app_within by lia.
    unfold front.
    do 4 (destruct a1 as [|? a1]; [discriminate H1|]).
    destruct a1; [|discriminate H1].
    do 12 (destruct pad1 as [|? pad1]; [discriminate Hp1|]).
    destruct pad1; [|discriminate Hp1].
    do 4 (destruct a2 as [|? a2]; [discriminate H2|]).
    destruct a2; [|discriminate H2].
    do 12 (destruct pad2 as [|? pad2]; [discriminate Hp2|]).
    destruct pad2; [|discriminate Hp2].
    do 4 (destruct ports as [|? ports]; [discriminate Hports|]).
    destruct ports; [|discriminate Hports].
    reflexivity.
  - intros short Hshort.
    apply (from_data_truncated PFStateKey.t (H := PFStateKey.unpackable)
             _ _ _ eq_refl PFStateKey_layout).
    cbn. exact Hshort.
Qed.

Lemma state_key_decode_witness :
  from_data PFStateKey.t
    ([x0a; x00; x00; x01] ++ repeat xff 12
       ++ [xc0; xa8; x00; x02] ++ repeat xee 12
       ++ [x00; x50; x1f; x90] ++ [x01; x02])
  = Ok ({| PFStateKey.addr := (ipv4_text [x0a; x00; x00; x01],
                               ipv4_text [xc0; xa8; x00; x02]);
           PFStateKey.port :=
             (PyStruct.be_int (firstn 2 [x00; x50; x1f; x90]),
              PyStruct.be_int (skipn 2 [x00; x50; x1f; x90])) |},
        [x01; x02]).
Proof.
  apply (proj1 (state_key_decode [x0a; x00; x00; x01] (repeat xff 12)
                  [xc0; xa8; x00; x02] (repeat xee 12)
                  [x00; x50; x1f; x90] [x01; x02]
                  eq_refl eq_refl eq_refl eq_refl eq_refl)).
Defined.

(** X9: on a decoded state message [is_nat] is true exactly when bytes 76
    to 79 of the buffer, the start of the second address of the second
    key, differ from bytes 40 to 43, the start of the second address of
    the first key: two different addresses never format alike. *)
Theorem is_nat_reads_the_wire :
  forall (data : bytes) (m : MessageState.t) (rest : bytes),
    from_data MessageState.t data = Ok (m, rest) ->
    (MessageState.is_nat m = true
     <-> Py.slice data 76 4 <> Py.slice data 40 4)
    /\ (MessageState.is_nat m = false
        <-> Py.slice data 76 4 = Py.slice data 40 4).
Proof.
  intros data m rest Hok.
  apply MessageState_from_data_inv in Hok as [Hlen [-> _]].
  assert (Heq : snd (PFStateKey.addr (snd (MessageState.key (state_at data))))
                = snd (PFStateKey.addr (fst (MessageState.key (state_at data))))
                <-> Py.slice data 76 4 = Py.slice data 40 4).
  { unfold state_at, state_key_at.
    cbn [MessageState.key PFStateKey.addr fst snd].
    rewrite ipv4_text_eq by (rewrite slice_length;
                             [lia | rewrite slice_length; lia]).
    rewrite !firstn_of_slice by lia.
    rewrite !slice_of_slice by lia.
    cbn [Nat.add]. reflexivity. }
  rewrite <- Heq. unfold MessageState.is_nat.
  destruct (String.eqb_spec
              (snd (PFStateKey.addr (snd (MessageState.key (state_at data)))))
              (snd (PFStateKey.addr (fst (MessageState.key (state_at data))))))
    as [Hsame | Hdiff]; cbn [negb]; split; split; intros Hx;
    try reflexivity; try discriminate; try assumption; try contradiction.
Qed.

Lemma is_nat_reads_the_wire_witness :
  MessageState.is_nat
    (state_at (repeat x00 76 ++ [x0a; x00; x00; x01] ++ repeat x00 162))
  = true.
Proof.
  apply (proj1 (is_nat_reads_the_wire
                  (repeat x00 76 ++ [x0a; x00; x00; x01] ++ repeat x00 162)
                  (state_at (repeat x00 76 ++ [x0a; x00; x00; x01]
                               ++ repeat x00 162))
                  [] eq_refl)).
  discriminate.
Defined.

(** X10: [get_protocol_name] tells protocols apart: two state messages
    with the same protocol name have the same protocol number, so none of
    the four names is also the numeral of another protocol. *)
Theorem get_protocol_name_injective :
  forall m1 m2 : MessageState.t,
    MessageState.get_protocol_name m1 = MessageState.get_protocol_name m2 ->
    MessageState.protocol m1 = MessageState.protocol m2.
Proof.
  intros m1 m2. unfold MessageState.get_protocol_name.
  generalize (MessageState.protocol m1) as p.
  generalize (MessageState.protocol m2) as q. intros q p.
  assert (Hname : forall (name : string) (z : Z),
             parse_decimal name = None -> name <> Py.str z).
  { intros name z Hnone Heq. rewrite Heq, str_parse_decimal in Hnone.
    discriminate Hnone. }
  repeat match goal with
         | |- context [(?z =? ?k)%Z] => destruct (Z.eqb_spec z k)
         end;
    intros Heq; try congruence; try discriminate Heq;
    try (now apply str_injective);
    exfalso;
    first [ eapply Hname; [|exact Heq]; reflexivity
          | eapply Hname; [|symmetry; exact Heq]; reflexivity ].
Qed.

Lemma get_protocol_name_injective_witness :
  MessageState.protocol (state_at (repeat x06 242))
  = MessageState.protocol (state_at (repeat x06 243)).
Proof.
  apply (get_protocol_name_injective (state_at (repeat x06 242))
           (state_at (repeat x06 243))).
  reflexivity.
Defined.

(** X11: a compressed update is read from 84 bytes in network byte order:
    the id from bytes 0 to 7, the two peer blocks as the opaque bytes 8 to
    39 and 40 to 71, creator from bytes 72 to 75, expire from 76 to 79 and
    timeout from byte 80; the three pad bytes are consumed and change
    nothing in the record; fewer than 84 bytes are refused. *)
Theorem update_compressed_decode :
  get_cstruct_size MessageUpdateCompressed.t = Ok 84%nat
  /\ (forall body pad tail : bytes,
         List.length body = 81%nat -> List.length pad = 3%nat ->
         from_data MessageUpdateCompressed.t (body ++ pad ++ tail)
         = Ok ({| MessageUpdateCompressed.id :=
                    PyStruct.be_int (Py.slice body 0 8);
                  MessageUpdateCompressed.creator :=
                    PyStruct.be_int (Py.slice body 72 4);
                  MessageUpdateCompressed.dst := Py.slice body 40 32;
                  MessageUpdateCompressed.src := Py.slice body 8 32;
                  MessageUpdateCompressed.expire :=
                    PyStruct.be_int (Py.slice body 76 4);
                  MessageUpdateCompressed.timeout :=
                    PyStruct.be_int (Py.slice body 80 1) |},
               tail))
  /\ (forall short : bytes,
         (List.length short < 84)%nat ->
         from_data MessageUpdateCompressed.t short
         = Raise TruncatedInputError).
Proof.
  split; [reflexivity|]. split.
  - intros body pad tail Hbody Hpad.
    rewrite MessageUpdateCompressed_from_data_ok
      by (rewrite !length_app; lia).
    rewrite !slice_app_within by lia.
    replace (skipn 84 (body ++ pad ++ tail)) with tail; [reflexivity|].
    rewrite app_assoc.
    replace 84%nat with (List.length (body ++ pad))
      by (rewrite length_app; lia).
    now rewrite skipn_app_exact.
  - intros short Hshort.
    apply (from_data_truncated MessageUpdateCompressed.t
             (H := MessageUpdateCompressed.unpackable)
             _ _ _ MessageUpdateCompressed_format
             MessageUpdateCompressed_layout).
    cbn. exact Hshort.
Qed.

Lemma update_compressed_decode_witness :
  from_data MessageUpdateCompressed.t
    (repeat x01 81 ++ [xaa; xbb; xcc] ++ [x09])
  = Ok ({| MessageUpdateCompressed.id :=
             PyStruct.be_int (Py.slice (repeat x01 81) 0 8);
           MessageUpdateCompressed.creator :=
             PyStruct.be_int (Py.slice (repeat x01 81) 72 4);
           MessageUpdateCompressed.dst := Py.slice (repeat x01 81) 40 32;
           MessageUpdateCompressed.src := Py.slice (repeat x01 81) 8 32;
           MessageUpdateCompressed.expire :=
             PyStruct.be_int (Py.slice (repeat x01 81) 76 4);
           MessageUpdateCompressed.timeout :=
             PyStruct.be_int (Py.slice (repeat x01 81) 80 1) |},
        [x09]).
Proof.
  apply (proj1 (proj2 update_compressed_decode)
           (repeat x01 81) [xaa; xbb; xcc] [x09]); reflexivity.
Defined.

(** X12: a clear message is read from 20 bytes: the interface field is
    bytes 0 to 15 and the creator the big-endian value of bytes 16 to 19,
    below 2^32; the bytes behind are handed back and fewer than 20 bytes
    are refused. *)
Theorem clear_decode :
  get_cstruct_size MessageClear.t = Ok 20%nat
  /\ (forall iface creator tail : bytes,
         List.length iface = 16%nat -> List.length creator = 4%nat ->
         from_data MessageClear.t (iface ++ creator ++ tail)
         = Ok ({| MessageClear.interface := iface;
                  MessageClear.creator := PyStruct.be_int creator |}, tail)
         /\ uint 32 (PyStruct.be_int creator))
  /\ (forall short : bytes,
         (List.length short < 20)%nat ->
         from_data MessageClear.t short = Raise TruncatedInputError).
Proof.
  split; [reflexivity|]. split.
  - intros iface creator tail Hif Hcr. split.
    + rewrite MessageClear_from_data_ok by (rewrite !length_app; lia).
      pose proof (slice_app_left iface (creator ++ tail)) as Hs1.
      pose proof (slice_app_right iface creator tail) as Hs2.
      rewrite Hif in Hs1, Hs2. rewrite Hcr in Hs2. rewrite Hs1, Hs2.
      replace (skipn 20 (iface ++ creator ++ tail)) with tail;
        [reflexivity|].
      rewrite app_assoc.
      replace 20%nat with (List.length (iface ++ creator))
        by (rewrite length_app; lia).
      now rewrite skipn_app_exact.
    + pose proof (be_int_range creator) as Hr. rewrite Hcr in Hr.
      exact Hr.
  - intros short Hshort.
    apply (from_data_truncated MessageClear.t (H := MessageClear.unpackable)
             _ _ _ eq_refl MessageClear_layout).
    cbn. exact Hshort.
Qed.

Lemma clear_decode_witness :
  from_data MessageClear.t
    (([x65; x6d; x30] ++ repeat x00 13) ++ [x00; x00; x01; x00] ++ [x2a])
  = Ok ({| MessageClear.interface := [x65; x6d; x30] ++ repeat x00 13;
           MessageClear.creator := PyStruct.be_int [x00; x00; x01; x00] |},
        [x2a]).
Proof.
  apply (proj1 (proj2 clear_decode)
           ([x65; x6d; x30] ++ repeat x00 13) [x00; x00; x01; x00] [x2a]);
    reflexivity.
Defined.

(** X13: the state key constructor formats an address field of four bytes
    or more and fails with [OSError] on a shorter one: [inet_ntoa] is given
    [addr[:4]], which then has fewer than four bytes. *)
Theorem state_key_init_needs_four_bytes :
  forall (addr1 addr2 : bytes) (port1 port2 : Z),
    ((4 <= List.length addr1)%nat -> (4 <= List.length addr2)%nat ->
     PFStateKey.__init__ [VBytes addr1; VBytes addr2; VInt port1; VInt port2]
     = Ok {| PFStateKey.addr := (ipv4_text addr1, ipv4_text addr2);
             PFStateKey.port := (port1, port2) |})
    /\ ((List.length addr1 < 4)%nat \/ (List.length addr2 < 4)%nat ->
        PFStateKey.__init__ [VBytes addr1; VBytes addr2; VInt port1; VInt port2]
        = Raise OSError).
Proof.
  intros addr1 addr2 port1 port2.
  assert (Hshort : forall addr : bytes,
             (List.length addr < 4)%nat ->
             PFStateKey.format_addr addr = Raise OSError).
  { intros addr Hlen. unfold PFStateKey.format_addr.
    destruct addr as [|a [|b [|c [|d tl]]]]; cbn in Hlen; try lia;
      reflexivity. }
  split.
  - intros H1 H2. cbn [PFStateKey.__init__].
    now rewrite !format_addr_ipv4.
  - intros [H1 | H2]; cbn [PFStateKey.__init__].
    + now rewrite (Hshort addr1).
    + destruct (Nat.lt_ge_cases (List.length addr1) 4) as [H1 | H1].
      * now rewrite (Hshort addr1).
      * rewrite format_addr_ipv4 by exact H1. cbn [bind].
        now rewrite (Hshort addr2).
Qed.

Lemma state_key_init_needs_four_bytes_witness :
  PFStateKey.__init__ [VBytes [x0a; x00; x00]; VBytes [x0a; x00; x00; x01];
                       VInt 1; VInt 2]
  = Raise OSError.
Proof.
  apply (proj2 (state_key_init_needs_four_bytes
                  [x0a; x00; x00] [x0a; x00; x00; x01] 1 2)).
  left. cbn. lia.
Defined.

Lemma created_by_injective (i c i' c' : Z) :
  (Py.str i ++ " (created by " ++ Py.str c ++ ")")%string
  = (Py.str i' ++ " (created by " ++ Py.str c' ++ ")")%string ->
  i = i' /\ c = c'.
Proof.
  cbn [append]. intros Heq.
  apply cut_at_char in Heq as [Hi Heq];
    try (apply str_avoids; reflexivity).
  apply (append_cancel "(created by ") in Heq.
  apply cut_at_char in Heq as [Hc _];
    try (apply str_avoids; reflexivity).
  split; now apply str_injective.
Qed.

(** X14: the one-line text of a delete-compressed, insert-ack or
    update-request message determines the message: two messages of one of
    these classes with the same text have the same id and the same
    creator; the text of a compressed update determines its id and
    creator. *)
Theorem message_text_determines_id_and_creator :
  (forall r r' : MessageDeleteCompressed.t,
      MessageDeleteCompressed.__str__ r = MessageDeleteCompressed.__str__ r' ->
      r = r')
  /\ (forall r r' : MessageInsertAck.t,
         MessageInsertAck.__str__ r = MessageInsertAck.__str__ r' -> r = r')
  /\ (forall r r' : MessageUpdateReq.t,
         MessageUpdateReq.__str__ r = MessageUpdateReq.__str__ r' -> r = r')
  /\ (forall r r' : MessageUpdateCompressed.t,
         MessageUpdateCompressed.__str__ r = MessageUpdateCompressed.__str__ r' ->
         MessageUpdateCompressed.id r = MessageUpdateCompressed.id r'
         /\ MessageUpdateCompressed.creator r
            = MessageUpdateCompressed.creator r').
Proof.
  split; [|split; [|split]].
  - intros [i c] [i' c'] Heq. unfold MessageDeleteCompressed.__str__ in Heq.
    cbn [MessageDeleteCompressed.id MessageDeleteCompressed.creator] in Heq.
    apply created_by_injective in Heq as [-> ->]. reflexivity.
  - intros [i c] [i' c'] Heq. unfold MessageInsertAck.__str__ in Heq.
    cbn [MessageInsertAck.id MessageInsertAck.creator] in Heq.
    apply append_cancel, created_by_injective in Heq as [-> ->]. reflexivity.
  - intros [i c] [i' c'] Heq. unfold MessageUpdateReq.__str__ in Heq.
    cbn [MessageUpdateReq.id MessageUpdateReq.creator] in Heq.
    apply append_cancel, created_by_injective in Heq as [-> ->]. reflexivity.
  - intros r r' Heq. unfold MessageUpdateCompressed.__str__ in Heq.
    now apply append_cancel, created_by_injective in Heq.
Qed.

Lemma message_text_determines_id_and_creator_witness :
  {| MessageInsertAck.id := 258; MessageInsertAck.creator := 7 |}
  = {| MessageInsertAck.id := 200 + 58; MessageInsertAck.creator := 3 + 4 |}.
Proof.
  apply (proj1 (proj2 message_text_determines_id_and_creator)).
  reflexivity.
Defined.

Lemma slice_app_beyond (l r : bytes) (k : nat) :
  List.length l = k ->
  forall off len : nat,
    (k <= off)%nat -> Py.slice (l ++ r) off len = Py.slice r (off - k) len.
Proof.
  intros Hk off len Hle. unfold Py.slice.
  rewrite skipn_app, skipn_all2 by lia. rewrite Hk. reflexivity.
Qed.

(** X15: the two peer blocks and rt_addr, bytes 96 to 175 of a state
    message, do not reach the record: two buffers that differ in these 80
    bytes only decode to the same state message. *)
Theorem state_message_skips_peers_and_rt_addr :
  forall (head skipped skipped' tail : bytes),
    List.length head = 96%nat ->
    List.length skipped = 80%nat -> List.length skipped' = 80%nat ->
    (66 <= List.length tail)%nat ->
    exists (m : MessageState.t),
      from_data MessageState.t (head ++ skipped ++ tail)
      = Ok (m, skipn 66 tail)
      /\ from_data MessageState.t (head ++ skipped' ++ tail)
         = Ok (m, skipn 66 tail).
Proof.
  intros head skipped skipped' tail Hhead Hsk Hsk' Htail.
  assert (Hone : forall mid : bytes,
             List.length mid = 80%nat ->
             from_data MessageState.t (head ++ mid ++ tail)
             = Ok (state_at (head ++ repeat x00 80 ++ tail), skipn 66 tail)).
  { intros mid Hmid.
    rewrite MessageState_from_data_ok by (rewrite !length_app; lia).
    f_equal. f_equal.
    - unfold state_at, state_key_at.
      repeat match goal with
             | |- context [Py.slice (head ++ ?r) ?off ?len] =>
                 first [ rewrite (slice_app_within head r off len) by lia
                       | rewrite (slice_app_beyond head r 96 Hhead off len)
                           by lia ]
             end.
      rewrite !(slice_app_beyond mid tail 80 Hmid) by lia.
      rewrite !(slice_app_beyond (repeat x00 80) tail 80
                  (repeat_length x00 80)) by lia.
      reflexivity.
    - rewrite app_assoc.
      replace 242%nat with (66 + List.length (head ++ mid))%nat
        by (rewrite length_app; lia).
      rewrite <- skipn_skipn. now rewrite skipn_app_exact. }
  exists (state_at (head ++ repeat x00 80 ++ tail)).
  split; now apply Hone.
Qed.

Lemma state_message_skips_peers_and_rt_addr_witness :
  exists (m : MessageState.t),
    from_data MessageState.t (repeat x01 96 ++ repeat x02 80 ++ repeat x03 66)
    = Ok (m, skipn 66 (repeat x03 66))
    /\ from_data MessageState.t
         (repeat x01 96 ++ repeat xff 80 ++ repeat x03 66)
       = Ok (m, skipn 66 (repeat x03 66)).
Proof.
  apply (state_message_skips_peers_and_rt_addr
           (repeat x01 96) (repeat x02 80) (repeat xff 80) (repeat x03 66));
    cbn; lia.
Defined.

(** X16: the table binds every action class to one action id and one
    only: each of the eight classes is reached from an id between 0 and 7,
    and a sub-header that reaches it has that id. *)
Theorem every_action_class_has_one_id :
  forall c : action_class,
    exists id : Z,
      (0 <= id <= 7)%Z
      /\ (forall n : Z, lookup_action {| action_id := id; count := n |} = Some c)
      /\ (forall shdr : SubHeader,
             lookup_action shdr = Some c -> action_id shdr = id).
Proof.
  intros c.
  assert (Hone : forall shdr c', lookup_action shdr = Some c' ->
             match c' with
             | ActionClearStates => action_id shdr = 0%Z
             | ActionInsertState => action_id shdr = 1%Z
             | ActionInsertAck => action_id shdr = 2%Z
             | ActionUpdateState => action_id shdr = 3%Z
             | ActionUpdateCompressedState => action_id shdr = 4%Z
             | ActionUpdateRequestState => action_id shdr = 5%Z
             | ActionDeleteState => action_id shdr = 6%Z
             | ActionDeleteCompressedState => action_id shdr = 7%Z
             end).
  { intros shdr c'. rewrite lookup_action_cases.
    repeat match goal with
           | |- context [(action_id shdr =? ?k)%Z] =>
               destruct (Z.eqb_spec (action_id shdr) k)
           end; intros Heq; inversion Heq; subst; assumption. }
  destruct c;
    [ exists 1%Z | exists 3%Z | exists 6%Z | exists 7%Z
    | exists 0%Z | exists 2%Z | exists 5%Z | exists 4%Z ];
    (split; [lia|]; split;
     [ intros n; reflexivity
     | intros shdr Hc; exact (Hone shdr _ Hc) ]).
Qed.
